(** * Mapping store: Telegram ID <-> Bitrix24 user ID (database.py)

    A shallow embedding of [database.py].  The module keeps two SQLite
    tables and offers save / lookup / bulk-load / delete accessors.  Every
    accessor opens a connection through the [get_db_connection] context
    manager, runs one statement, and converts any [Exception] into a typed
    failure value.

    The embedding has three layers:
    - the tables and the SQL statements the module issues, as functions on
      lists of rows kept in rowid order;
    - the [sqlite3] connection discipline (implicit transaction before DML,
      commit, rollback, close) with an oracle that says which storage call
      fails and with which exception;
    - the Python functions themselves, written in a state-and-exception
      monad so that [try]/[except]/[finally]/[with] keep their shape.

    The calls to [logger] are left out: they return nothing and change
    neither the file nor the value a function returns. *)

From Stdlib Require Import Ascii String.
From stdpp Require Import base numbers option list sorting strings gmap fin_maps.

Local Open Scope Z_scope.

(** ** Exceptions and results *)

(** The exception classes that can reach the module.  [KeyboardInterrupt]
    derives from [BaseException] only, the others from [Exception]. *)
Inductive exn : Type :=
| OperationalError
| DatabaseError
| OverflowError
| KeyboardInterrupt.

Definition is_Exception (e : exn) : bool :=
  match e with
  | KeyboardInterrupt => false
  | _ => true
  end.

Inductive result (A : Type) : Type :=
| Ok (a : A)
| Raise (e : exn).
Arguments Ok {A} a.
Arguments Raise {A} e.

(** ** State-and-exception monad *)

Definition ST (S A : Type) : Type := S -> S * result A.

Definition ret {S A} (a : A) : ST S A := fun s => (s, Ok a).

Definition raise {S A} (e : exn) : ST S A := fun s => (s, Raise e).

Definition bind {S A B} (m : ST S A) (k : A -> ST S B) : ST S B :=
  fun s =>
    match m s with
    | (s', Ok a) => k a s'
    | (s', Raise e) => (s', Raise e)
    end.

Declare Scope py_scope.
Delimit Scope py_scope with py.
Notation "x <- m ;; k" := (bind m (fun x => k))
  (at level 100, m at next level, right associativity) : py_scope.
Notation "m ;;; k" := (bind m (fun _ => k))
  (at level 100, right associativity) : py_scope.
Local Open Scope py_scope.

(** [try: body except Exception as e: handler e].  An exception that is not
    an [Exception] passes through. *)
Definition try_except {S A} (body : ST S A) (handler : exn -> ST S A) : ST S A :=
  fun s =>
    match body s with
    | (s', Ok a) => (s', Ok a)
    | (s', Raise e) => if is_Exception e then handler e s' else (s', Raise e)
    end.

(** [try: body finally: fin].  An exception raised by [fin] replaces the
    outcome of [body]. *)
Definition try_finally {S A} (body : ST S A) (fin : ST S unit) : ST S A :=
  fun s =>
    match body s with
    | (s', r) =>
      match fin s' with
      | (s'', Ok _) => (s'', r)
      | (s'', Raise e) => (s'', Raise e)
      end
    end.

(** Local variables of the calling function's frame ride along as the first
    component of the state. *)
Definition get_local {L X} : ST (L * X) L := fun s => (s, Ok (fst s)).

Definition set_local {L X} (l : L) : ST (L * X) unit :=
  fun s => ((l, snd s), Ok tt).

Definition lift {L X A} (m : ST X A) : ST (L * X) A :=
  fun s => match m (snd s) with (x', r) => ((fst s, x'), r) end.

(** [for x in xs: f x] *)
Fixpoint for_each {S A} (xs : list A) (f : A -> ST S unit) : ST S unit :=
  match xs with
  | [] => ret tt
  | x :: xs' => f x ;;; for_each xs' f
  end.

(** Run a function body with its initial locals; the locals die with the
    frame. *)
Definition with_frame {L X A} (l0 : L) (m : ST (L * X) A) : ST X A :=
  fun x => match m (l0, x) with ((_, x'), r) => (x', r) end.

(** ** Tables *)

Record mapping_row : Type := {
  row_telegram_id : Z;
  row_bitrix_user_id : Z;
  row_created_at : Z;
  row_updated_at : Z
}.

Record username_row : Type := {
  urow_telegram_username : string;
  urow_bitrix_user_id : Z;
  urow_created_at : Z;
  urow_updated_at : Z
}.

(** The database file.  A table that has not been created is [None]; rows
    are listed in rowid order, which is the order a scan returns them. *)
Record Database : Type := {
  telegram_bitrix_mapping : option (list mapping_row);
  username_bitrix_mapping : option (list username_row);
  idx_bitrix_user_id : bool
}.

(** A fresh file, as [sqlite3.connect] creates it. *)
Definition empty_file : Database :=
  {| telegram_bitrix_mapping := None;
     username_bitrix_mapping := None;
     idx_bitrix_user_id := false |}.

Definition set_telegram_bitrix_mapping (rows : list mapping_row) (db : Database) : Database :=
  {| telegram_bitrix_mapping := Some rows;
     username_bitrix_mapping := username_bitrix_mapping db;
     idx_bitrix_user_id := idx_bitrix_user_id db |}.

Definition set_username_bitrix_mapping (rows : list username_row) (db : Database) : Database :=
  {| telegram_bitrix_mapping := telegram_bitrix_mapping db;
     username_bitrix_mapping := Some rows;
     idx_bitrix_user_id := idx_bitrix_user_id db |}.

(** ** The environment of one call *)

(** The storage calls a function makes, in the order it can reach them. *)
Inductive step : Type :=
| Connect
| Execute (n : nat)
| Commit
| Rollback
| Close.

(** What the outside world contributes to one call: the server clock that
    [CURRENT_TIMESTAMP] reads, and which storage calls fail. *)
Record Env : Type := {
  CURRENT_TIMESTAMP : Z;
  fault : step -> option exn
}.

Definition no_faults (env : Env) : Prop := forall s, fault env s = None.

(** Every failure the storage can produce is an [Exception]. *)
Definition storage_faults (env : Env) : Prop :=
  forall s e, fault env s = Some e -> is_Exception e = true.

(** ** SQL statements *)

(** SQLite stores INTEGER in 64 bits; the binding of a larger Python [int]
    raises [OverflowError]. *)
Definition int64 (z : Z) : bool := (- 2 ^ 63 <=? z) && (z <? 2 ^ 63).

(** A row conflicts with a new one on [telegram_id INTEGER PRIMARY KEY] or on
    [UNIQUE(telegram_id, bitrix_user_id)]. *)
Definition mapping_conflict (new r : mapping_row) : Prop :=
  row_telegram_id r = row_telegram_id new
  \/ (row_telegram_id r = row_telegram_id new
      /\ row_bitrix_user_id r = row_bitrix_user_id new).

#[global] Instance mapping_conflict_dec new r : Decision (mapping_conflict new r).
Proof. unfold mapping_conflict. apply _. Defined.

(** [telegram_id] is the rowid: the new row goes before the first row with a
    larger one. *)
Fixpoint rowid_insert (new : mapping_row) (rows : list mapping_row) : list mapping_row :=
  match rows with
  | [] => [new]
  | r :: rest =>
    if row_telegram_id new <? row_telegram_id r
    then new :: r :: rest
    else r :: rowid_insert new rest
  end.

(** The row that
    [INSERT ... (telegram_id, bitrix_user_id, updated_at) VALUES (?, ?, CURRENT_TIMESTAMP)]
    writes: [created_at] is not listed and takes its DEFAULT
    CURRENT_TIMESTAMP. *)
Definition new_mapping_row (now telegram_id bitrix_user_id : Z) : mapping_row :=
  {| row_telegram_id := telegram_id;
     row_bitrix_user_id := bitrix_user_id;
     row_created_at := now;
     row_updated_at := now |}.

(** The REPLACE conflict resolution: the conflicting rows are deleted, then
    the new row is inserted. *)
Definition replace_mapping_row (new : mapping_row) (rows : list mapping_row)
    : list mapping_row :=
  rowid_insert new (filter (fun r => ~ mapping_conflict new r) rows).

(** [INSERT OR REPLACE INTO telegram_bitrix_mapping
     (telegram_id, bitrix_user_id, updated_at) VALUES (?, ?, CURRENT_TIMESTAMP)] *)
Definition INSERT_OR_REPLACE_INTO_telegram_bitrix_mapping
    (now telegram_id bitrix_user_id : Z) (db : Database) : result (Database * Z) :=
  match telegram_bitrix_mapping db with
  | None => Raise OperationalError
  | Some rows =>
    if int64 telegram_id && int64 bitrix_user_id then
      Ok (set_telegram_bitrix_mapping
            (replace_mapping_row (new_mapping_row now telegram_id bitrix_user_id) rows)
            db,
          1)
    else Raise OverflowError
  end.

(** [SELECT bitrix_user_id FROM telegram_bitrix_mapping WHERE telegram_id = ?] *)
Definition SELECT_bitrix_user_id_WHERE_telegram_id
    (telegram_id : Z) (db : Database) : result (list Z) :=
  match telegram_bitrix_mapping db with
  | None => Raise OperationalError
  | Some rows =>
    if int64 telegram_id then
      Ok (row_bitrix_user_id
            <$> filter (fun r => row_telegram_id r = telegram_id) rows)
    else Raise OverflowError
  end.

(** [SELECT telegram_id FROM telegram_bitrix_mapping WHERE bitrix_user_id = ?].
    Through [idx_bitrix_user_id] or by a table scan, the matching rows come
    in rowid order. *)
Definition SELECT_telegram_id_WHERE_bitrix_user_id
    (bitrix_user_id : Z) (db : Database) : result (list Z) :=
  match telegram_bitrix_mapping db with
  | None => Raise OperationalError
  | Some rows =>
    if int64 bitrix_user_id then
      Ok (row_telegram_id
            <$> filter (fun r => row_bitrix_user_id r = bitrix_user_id) rows)
    else Raise OverflowError
  end.

(** [SELECT telegram_id, bitrix_user_id FROM telegram_bitrix_mapping] *)
Definition SELECT_telegram_id_bitrix_user_id (db : Database) : result (list (Z * Z)) :=
  match telegram_bitrix_mapping db with
  | None => Raise OperationalError
  | Some rows => Ok ((fun r => (row_telegram_id r, row_bitrix_user_id r)) <$> rows)
  end.

(** [DELETE FROM telegram_bitrix_mapping WHERE telegram_id = ?]; the second
    component is [cursor.rowcount]. *)
Definition DELETE_FROM_telegram_bitrix_mapping
    (telegram_id : Z) (db : Database) : result (Database * Z) :=
  match telegram_bitrix_mapping db with
  | None => Raise OperationalError
  | Some rows =>
    if int64 telegram_id then
      Ok (set_telegram_bitrix_mapping
            (filter (fun r => row_telegram_id r <> telegram_id) rows) db,
          Z.of_nat (length (filter (fun r => row_telegram_id r = telegram_id) rows)))
    else Raise OverflowError
  end.

Definition new_username_row (now : Z) (username : string) (bitrix_user_id : Z)
    : username_row :=
  {| urow_telegram_username := username;
     urow_bitrix_user_id := bitrix_user_id;
     urow_created_at := now;
     urow_updated_at := now |}.

(** [telegram_username TEXT PRIMARY KEY]: the rowid is assigned by SQLite, so
    after the conflicting rows are deleted the new row goes last. *)
Definition replace_username_row (new : username_row) (rows : list username_row)
    : list username_row :=
  filter (fun r => urow_telegram_username r <> urow_telegram_username new) rows
  ++ [new].

(** [INSERT OR REPLACE INTO username_bitrix_mapping
     (telegram_username, bitrix_user_id, updated_at) VALUES (?, ?, CURRENT_TIMESTAMP)] *)
Definition INSERT_OR_REPLACE_INTO_username_bitrix_mapping
    (now : Z) (username : string) (bitrix_user_id : Z) (db : Database)
    : result (Database * Z) :=
  match username_bitrix_mapping db with
  | None => Raise OperationalError
  | Some rows =>
    if int64 bitrix_user_id then
      Ok (set_username_bitrix_mapping
            (replace_username_row (new_username_row now username bitrix_user_id) rows)
            db,
          1)
    else Raise OverflowError
  end.

(** [SELECT bitrix_user_id FROM username_bitrix_mapping WHERE telegram_username = ?] *)
Definition SELECT_bitrix_user_id_WHERE_telegram_username
    (username : string) (db : Database) : result (list Z) :=
  match username_bitrix_mapping db with
  | None => Raise OperationalError
  | Some rows =>
    Ok (urow_bitrix_user_id
          <$> filter (fun r => urow_telegram_username r = username) rows)
  end.

(** [CREATE TABLE IF NOT EXISTS telegram_bitrix_mapping (...)] *)
Definition CREATE_TABLE_telegram_bitrix_mapping (db : Database) : result Database :=
  match telegram_bitrix_mapping db with
  | Some _ => Ok db
  | None => Ok (set_telegram_bitrix_mapping [] db)
  end.

(** [CREATE TABLE IF NOT EXISTS username_bitrix_mapping (...)] *)
Definition CREATE_TABLE_username_bitrix_mapping (db : Database) : result Database :=
  match username_bitrix_mapping db with
  | Some _ => Ok db
  | None => Ok (set_username_bitrix_mapping [] db)
  end.

(** [CREATE INDEX IF NOT EXISTS idx_bitrix_user_id
     ON telegram_bitrix_mapping(bitrix_user_id)] *)
Definition CREATE_INDEX_idx_bitrix_user_id (db : Database) : result Database :=
  match telegram_bitrix_mapping db with
  | None => Raise OperationalError
  | Some _ =>
    Ok {| telegram_bitrix_mapping := telegram_bitrix_mapping db;
          username_bitrix_mapping := username_bitrix_mapping db;
          idx_bitrix_user_id := true |}
  end.

(** ** The sqlite3 connection *)

(** [durable] is what the file holds, [current] what the connection sees;
    they differ while a transaction is open. *)
Record Connection : Type := {
  durable : Database;
  current : Database;
  in_transaction : bool
}.

(** [sqlite3.connect(DB_PATH)] *)
Definition sqlite3_connect (env : Env) (db : Database) : result Connection :=
  match fault env Connect with
  | Some e => Raise e
  | None => Ok {| durable := db; current := db; in_transaction := false |}
  end.

(** [cursor.execute] of INSERT / REPLACE / DELETE: the module implicitly
    opens a transaction first.  The result is [cursor.rowcount]. *)
Definition cursor_execute_dml (env : Env) (n : nat)
    (stmt : Database -> result (Database * Z)) : ST Connection Z :=
  fun conn =>
    match fault env (Execute n) with
    | Some e => (conn, Raise e)
    | None =>
      match stmt (current conn) with
      | Raise e => (conn, Raise e)
      | Ok (db', rowcount) =>
        ({| durable := durable conn; current := db'; in_transaction := true |},
         Ok rowcount)
      end
    end.

(** [cursor.execute] of a SELECT: no transaction is opened.  The result is
    the list of rows the cursor will hand out. *)
Definition cursor_execute_query {R} (env : Env) (n : nat)
    (query : Database -> result (list R)) : ST Connection (list R) :=
  fun conn =>
    match fault env (Execute n) with
    | Some e => (conn, Raise e)
    | None =>
      match query (current conn) with
      | Raise e => (conn, Raise e)
      | Ok rows => (conn, Ok rows)
      end
    end.

(** [cursor.execute] of CREATE TABLE / CREATE INDEX: outside a transaction
    the statement is committed on its own. *)
Definition cursor_execute_ddl (env : Env) (n : nat)
    (stmt : Database -> result Database) : ST Connection unit :=
  fun conn =>
    match fault env (Execute n) with
    | Some e => (conn, Raise e)
    | None =>
      match stmt (current conn) with
      | Raise e => (conn, Raise e)
      | Ok db' =>
        (if in_transaction conn
         then {| durable := durable conn; current := db'; in_transaction := true |}
         else {| durable := db'; current := db'; in_transaction := false |},
         Ok tt)
      end
    end.

Definition fetchone {R} (rows : list R) : option R := head rows.

Definition fetchall {R} (rows : list R) : list R := rows.

(** [conn.commit()]: nothing to do, and nothing to fail, when no transaction
    is open. *)
Definition conn_commit (env : Env) : ST Connection unit :=
  fun conn =>
    if in_transaction conn then
      match fault env Commit with
      | Some e => (conn, Raise e)
      | None =>
        ({| durable := current conn; current := current conn; in_transaction := false |},
         Ok tt)
      end
    else (conn, Ok tt).

(** [conn.rollback()] *)
Definition conn_rollback (env : Env) : ST Connection unit :=
  fun conn =>
    if in_transaction conn then
      match fault env Rollback with
      | Some e => (conn, Raise e)
      | None =>
        ({| durable := durable conn; current := durable conn; in_transaction := false |},
         Ok tt)
      end
    else (conn, Ok tt).

(** [conn.close()]: what was not committed is lost. *)
Definition conn_close (env : Env) : ST Connection unit :=
  fun conn =>
    match fault env Close with
    | Some e => (conn, Raise e)
    | None =>
      ({| durable := durable conn; current := durable conn; in_transaction := false |},
       Ok tt)
    end.

(** [get_db_connection], the context manager, applied to the body of the
    [with] block:
<<
    conn = sqlite3.connect(DB_PATH)
    try:
        yield conn
        conn.commit()
    except Exception:
        conn.rollback()
        raise
    finally:
        conn.close()
>>
    Once the block is left only the file remains. *)
Definition get_db_connection {L A} (env : Env) (body : ST (L * Connection) A)
    : ST (L * Database) A :=
  fun s =>
    match sqlite3_connect env (snd s) with
    | Raise e => (s, Raise e)
    | Ok conn =>
      match
        try_finally
          (try_except
             (a <- body ;;
              lift (conn_commit env) ;;;
              ret a)
             (fun e => lift (conn_rollback env) ;;; raise e))
          (lift (conn_close env))
          (fst s, conn)
      with
      | ((l', conn'), r) => ((l', durable conn'), r)
      end
    end.

(** ** The module's functions *)

(** [str.lstrip(chars)]: drop every leading character that occurs in
    [chars]. *)
Fixpoint occurs (c : ascii) (chars : string) : bool :=
  match chars with
  | EmptyString => false
  | String c' chars' => Ascii.eqb c c' || occurs c chars'
  end.

Fixpoint lstrip (s chars : string) : string :=
  match s with
  | EmptyString => EmptyString
  | String c s' => if occurs c chars then lstrip s' chars else s
  end.

Definition init_database (env : Env) : ST Database unit :=
  with_frame tt
    (try_except
       (get_db_connection env
          (lift (cursor_execute_ddl env 0 CREATE_TABLE_telegram_bitrix_mapping) ;;;
           lift (cursor_execute_ddl env 1 CREATE_TABLE_username_bitrix_mapping) ;;;
           lift (cursor_execute_ddl env 2 CREATE_INDEX_idx_bitrix_user_id)))
       (fun e => raise e)).

Definition save_telegram_mapping (env : Env) (telegram_id bitrix_user_id : Z)
    : ST Database bool :=
  with_frame tt
    (try_except
       (get_db_connection env
          (lift (cursor_execute_dml env 0
                   (INSERT_OR_REPLACE_INTO_telegram_bitrix_mapping
                      (CURRENT_TIMESTAMP env) telegram_id bitrix_user_id)) ;;;
           ret true))
       (fun e => ret false)).

Definition get_bitrix_user_id (env : Env) (telegram_id : Z) : ST Database (option Z) :=
  with_frame tt
    (try_except
       (get_db_connection env
          (rows <- lift (cursor_execute_query env 0
                           (SELECT_bitrix_user_id_WHERE_telegram_id telegram_id)) ;;
           match fetchone rows with
           | Some row => ret (Some row)
           | None => ret None
           end))
       (fun e => ret None)).

Definition get_telegram_id (env : Env) (bitrix_user_id : Z) : ST Database (option Z) :=
  with_frame tt
    (try_except
       (get_db_connection env
          (rows <- lift (cursor_execute_query env 0
                           (SELECT_telegram_id_WHERE_bitrix_user_id bitrix_user_id)) ;;
           match fetchone rows with
           | Some row => ret (Some row)
           | None => ret None
           end))
       (fun e => ret None)).

(** The dictionary [mappings] is a local assigned before the [try] and
    returned after it, so what the loop stored survives a later exception. *)
Definition load_all_telegram_mappings (env : Env) : ST Database (gmap Z Z) :=
  with_frame (∅ : gmap Z Z)
    (try_except
       (get_db_connection env
          (rows <- lift (cursor_execute_query env 0 SELECT_telegram_id_bitrix_user_id) ;;
           for_each (fetchall rows)
             (fun row =>
                mappings <- get_local ;;
                set_local (<[fst row := snd row]> mappings))))
       (fun e => ret tt) ;;;
     get_local).

Definition save_username_mapping (env : Env) (telegram_username : string)
    (bitrix_user_id : Z) : ST Database bool :=
  with_frame tt
    (try_except
       (let username := lstrip telegram_username "@" in
        get_db_connection env
          (lift (cursor_execute_dml env 0
                   (INSERT_OR_REPLACE_INTO_username_bitrix_mapping
                      (CURRENT_TIMESTAMP env) username bitrix_user_id)) ;;;
           ret true))
       (fun e => ret false)).

Definition get_bitrix_user_id_by_username (env : Env) (telegram_username : string)
    : ST Database (option Z) :=
  with_frame tt
    (try_except
       (let username := lstrip telegram_username "@" in
        get_db_connection env
          (rows <- lift (cursor_execute_query env 0
                           (SELECT_bitrix_user_id_WHERE_telegram_username username)) ;;
           match fetchone rows with
           | Some row => ret (Some row)
           | None => ret None
           end))
       (fun e => ret None)).

Definition delete_telegram_mapping (env : Env) (telegram_id : Z) : ST Database bool :=
  with_frame tt
    (try_except
       (get_db_connection env
          (rowcount <- lift (cursor_execute_dml env 0
                               (DELETE_FROM_telegram_bitrix_mapping telegram_id)) ;;
           if 0 <? rowcount then ret true else ret false))
       (fun e => ret false)).

Definition get_all_mappings (env : Env) : ST Database (gmap Z Z) :=
  load_all_telegram_mappings env.

(** ** Histories of calls *)

(** A call of one of the module's functions, with its arguments. *)
Inductive call : Type :=
| call_init_database
| call_save_telegram_mapping (telegram_id bitrix_user_id : Z)
| call_get_bitrix_user_id (telegram_id : Z)
| call_get_telegram_id (bitrix_user_id : Z)
| call_load_all_telegram_mappings
| call_save_username_mapping (telegram_username : string) (bitrix_user_id : Z)
| call_get_bitrix_user_id_by_username (telegram_username : string)
| call_delete_telegram_mapping (telegram_id : Z)
| call_get_all_mappings.

(** The file after one call. *)
Definition exec (env : Env) (c : call) (db : Database) : Database :=
  match c with
  | call_init_database => fst (init_database env db)
  | call_save_telegram_mapping t b => fst (save_telegram_mapping env t b db)
  | call_get_bitrix_user_id t => fst (get_bitrix_user_id env t db)
  | call_get_telegram_id b => fst (get_telegram_id env b db)
  | call_load_all_telegram_mappings => fst (load_all_telegram_mappings env db)
  | call_save_username_mapping u b => fst (save_username_mapping env u b db)
  | call_get_bitrix_user_id_by_username u => fst (get_bitrix_user_id_by_username env u db)
  | call_delete_telegram_mapping t => fst (delete_telegram_mapping env t db)
  | call_get_all_mappings => fst (get_all_mappings env db)
  end.

(** The file after a history of calls, each in its own environment. *)
Fixpoint run (history : list (Env * call)) (db : Database) : Database :=
  match history with
  | [] => db
  | (env, c) :: rest => run rest (exec env c db)
  end.

(** The states the module can bring a fresh file to, whatever the clock
    shows and whichever storage calls fail on the way. *)
Definition reachable (db : Database) : Prop :=
  exists history, run history empty_file = db.

(** A batch of saves, as a caller loading several identities would issue
    them. *)
Fixpoint save_all (saves : list (Env * (Z * Z))) (db : Database) : Database :=
  match saves with
  | [] => db
  | (env, (t, b)) :: rest => save_all rest (fst (save_telegram_mapping env t b db))
  end.

(** The representation invariant of the mapping table: rowids ascend
    strictly and every stored integer fits SQLite's INTEGER. *)
Definition rowid_lt (r1 r2 : mapping_row) : Prop :=
  row_telegram_id r1 < row_telegram_id r2.

Definition mapping_table_ok (rows : list mapping_row) : Prop :=
  StronglySorted rowid_lt rows
  /\ Forall (fun r => int64 (row_telegram_id r) = true
                     /\ int64 (row_bitrix_user_id r) = true) rows.

Definition username_table_ok (rows : list username_row) : Prop :=
  NoDup (urow_telegram_username <$> rows).

Definition database_ok (db : Database) : Prop :=
  (forall rows, telegram_bitrix_mapping db = Some rows -> mapping_table_ok rows)
  /\ (forall rows, username_bitrix_mapping db = Some rows -> username_table_ok rows).

(** A clock reading with no storage failure. *)
Definition quiet (now : Z) : Env :=
  {| CURRENT_TIMESTAMP := now; fault := fun _ => None |}.

(** A storage call in [steps] fails. *)
Definition fails_at (env : Env) (steps : list step) : Prop :=
  exists s, s ∈ steps /\ fault env s <> None.

(** The call returned a value, and the failure value if one of [steps]
    failed. *)
Definition contained {A} (failure : A) (steps : list step) (env : Env)
    (outcome : Database * result A) : Prop :=
  exists a, snd outcome = Ok a /\ (fails_at env steps -> a = failure).

(** ** Auxiliary notions for the verification *)

(** The connection [sqlite3.connect] hands out. *)
Definition fresh (db : Database) : Connection :=
  {| durable := db; current := db; in_transaction := false |}.

(** What [get_db_connection] does once the body of the [with] block has
    ended in [r] on connection [c]: commit after a normal end, roll back and
    re-raise after an [Exception], close in every case. *)
Definition leave {A} (env : Env) (c : Connection) (r : result A)
    : Connection * result A :=
  try_finally
    (try_except
       (a <- (fun c' => (c', r)) ;; conn_commit env ;;; ret a)
       (fun e => conn_rollback env ;;; raise e))
    (conn_close env) c.

(** [except Exception as e: return failure] around an outcome. *)
Definition guard {A} (failure : A) (r : result A) : result A :=
  match r with
  | Ok a => Ok a
  | Raise e => if is_Exception e then Ok failure else Raise e
  end.

(** The dictionary the loop of [load_all_telegram_mappings] builds from the
    fetched rows, starting from [m]. *)
Definition loop_result (m : gmap Z Z) (fetched : list (Z * Z)) : gmap Z Z :=
  foldl (fun m row => <[fst row := snd row]> m) m fetched.

Definition pairs_of (rows : list mapping_row) : list (Z * Z) :=
  (fun r => (row_telegram_id r, row_bitrix_user_id r)) <$> rows.

(** The file after the statement of each writing call went through. *)
Definition mapping_saved (env : Env) (t b : Z) (db db' : Database) : Prop :=
  exists rows,
    telegram_bitrix_mapping db = Some rows
    /\ int64 t = true /\ int64 b = true
    /\ db' = set_telegram_bitrix_mapping
               (replace_mapping_row (new_mapping_row (CURRENT_TIMESTAMP env) t b) rows)
               db.

Definition username_saved (env : Env) (u : string) (b : Z) (db db' : Database) : Prop :=
  exists urows,
    username_bitrix_mapping db = Some urows
    /\ int64 b = true
    /\ db' = set_username_bitrix_mapping
               (replace_username_row
                  (new_username_row (CURRENT_TIMESTAMP env) (lstrip u "@") b) urows)
               db.

Definition mapping_deleted (t : Z) (db db' : Database) : Prop :=
  exists rows,
    telegram_bitrix_mapping db = Some rows
    /\ int64 t = true
    /\ db' = set_telegram_bitrix_mapping
               (filter (fun r => row_telegram_id r <> t) rows) db.

(** A save in a quiet environment with storable integers. *)
Definition valid_save (s : Env * (Z * Z)) : Prop :=
  no_faults (fst s) /\ int64 (fst (snd s)) = true /\ int64 (snd (snd s)) = true.

(** The file [init_database] makes of a fresh one. *)
Definition initialized : Database := fst (init_database (quiet 0) empty_file).

(** The statement cannot be executed: the disk is unreadable. *)
Definition disk_error : Env :=
  {| CURRENT_TIMESTAMP := 1;
     fault := fun s => match s with
                       | Execute 0 => Some OperationalError
                       | _ => None
                       end |}.

(** Two Telegram IDs of one Bitrix24 user, saved in descending order. *)
Definition shared : Database :=
  fst (save_telegram_mapping (quiet 2) 42 7
         (fst (save_telegram_mapping (quiet 1) 100 7 initialized))).

(** [n] sigils in front of a handle. *)
Fixpoint sigils (n : nat) (s : string) : string :=
  match n with
  | O => s
  | S n' => String "@"%char (sigils n' s)
  end.

(** No stored handle starts with the sigil. *)
Definition usernames_stripped (db : Database) : Prop :=
  forall urows,
    username_bitrix_mapping db = Some urows ->
    Forall (fun r => forall rest, urow_telegram_username r <> String "@"%char rest)
      urows.

(** The transaction cannot be committed: the disk is full. *)
Definition disk_full : Env :=
  {| CURRENT_TIMESTAMP := 1;
     fault := fun s => match s with
                       | Commit => Some OperationalError
                       | _ => None
                       end |}.

(** Both timestamps of every row read the same. *)
Definition timestamps_coincide (db : Database) : Prop :=
  (forall rows,
     telegram_bitrix_mapping db = Some rows ->
     Forall (fun r => row_created_at r = row_updated_at r) rows)
  /\ (forall urows,
        username_bitrix_mapping db = Some urows ->
        Forall (fun r => urow_created_at r = urow_updated_at r) urows).

(** * Verification *)

(** ** Rows and the rowid order *)

Section rows.
Implicit Types (new r : mapping_row) (rows : list mapping_row).

Lemma mapping_conflict_iff new r :
  mapping_conflict new r <-> row_telegram_id r = row_telegram_id new.
Proof. unfold mapping_conflict. tauto. Qed.

Lemma rowid_insert_perm new rows : rowid_insert new rows ≡ₚ new :: rows.
Proof.
  induction rows as [|r rest IH]; simpl; [done|].
  destruct (row_telegram_id new <? row_telegram_id r); [done|].
  rewrite IH. apply Permutation_swap.
Qed.

Lemma elem_of_rowid_insert new rows r :
  r ∈ rowid_insert new rows <-> r = new \/ r ∈ rows.
Proof. rewrite rowid_insert_perm. apply elem_of_cons. Qed.

(** A scan for a property that only the new row has finds exactly it. *)
Lemma filter_rowid_insert_only (P : mapping_row -> Prop)
    `{!forall r, Decision (P r)} new rows :
  P new -> (forall r, r ∈ rows -> ~ P r) ->
  filter P (rowid_insert new rows) = [new].
Proof.
  intros Hnew Hrows.
  assert (filter P rows = []) as Hnone.
  { induction rows as [|r rest IH]; [done|].
    rewrite filter_cons_False by (apply Hrows; left).
    apply IH. intros r' Hr'. apply Hrows. by right. }
  clear Hrows. induction rows as [|r rest IH]; simpl.
  - by rewrite filter_cons_True.
  - rewrite filter_cons in Hnone. destruct (decide (P r)); [done|].
    destruct (row_telegram_id new <? row_telegram_id r).
    + rewrite filter_cons_True, filter_cons_False, Hnone; done.
    + rewrite filter_cons_False; auto.
Qed.

(** A scan for a property the new row lacks does not see the insertion. *)
Lemma filter_rowid_insert_skip (P : mapping_row -> Prop)
    `{!forall r, Decision (P r)} new rows :
  ~ P new -> filter P (rowid_insert new rows) = filter P rows.
Proof.
  intros Hnew. induction rows as [|r rest IH]; simpl.
  - by rewrite filter_cons_False.
  - destruct (row_telegram_id new <? row_telegram_id r).
    + by rewrite filter_cons_False.
    + rewrite !filter_cons, IH. done.
Qed.

Lemma filter_all (A : Type) (P : A -> Prop) `{!forall x, Decision (P x)} (l : list A) :
  Forall P l -> filter P l = l.
Proof.
  induction 1 as [|x l Hx _ IH]; [done|].
  by rewrite filter_cons_True, IH.
Qed.

Lemma filter_none (A : Type) (P : A -> Prop) `{!forall x, Decision (P x)} (l : list A) :
  Forall (fun x => ~ P x) l -> filter P l = [].
Proof.
  induction 1 as [|x l Hx _ IH]; [done|].
  by rewrite filter_cons_False.
Qed.

Lemma StronglySorted_filter (P : mapping_row -> Prop)
    `{!forall r, Decision (P r)} rows :
  StronglySorted rowid_lt rows -> StronglySorted rowid_lt (filter P rows).
Proof.
  induction 1 as [|r rest Hs IH Hr]; [constructor|].
  rewrite filter_cons. destruct (decide (P r)); [|done].
  constructor; [done|].
  rewrite Forall_forall in *. intros r' [_ Hr']%list_elem_of_filter. auto.
Qed.

Lemma StronglySorted_rowid_insert new rows :
  StronglySorted rowid_lt rows ->
  (forall r, r ∈ rows -> row_telegram_id r <> row_telegram_id new) ->
  StronglySorted rowid_lt (rowid_insert new rows).
Proof.
  induction 1 as [|r rest Hs IH Hr]; intros Hfresh; simpl.
  - repeat constructor.
  - destruct (Z.ltb_spec (row_telegram_id new) (row_telegram_id r)) as [Hlt|Hge].
    + constructor; [by constructor|].
      constructor; [done|].
      rewrite Forall_forall in *. intros r' Hr'. unfold rowid_lt in *.
      specialize (Hr r' Hr'). lia.
    + constructor.
      * apply IH. intros r' Hr'. apply Hfresh. by right.
      * rewrite Forall_forall in *. intros r' [->|Hr']%elem_of_rowid_insert; [|auto].
        unfold rowid_lt. specialize (Hfresh r (list_elem_of_here _ _)). lia.
Qed.

(** Ascending rowids are distinct. *)
Lemma StronglySorted_NoDup rows :
  StronglySorted rowid_lt rows -> NoDup (row_telegram_id <$> rows).
Proof.
  induction 1 as [|r rest Hs IH Hr]; simpl; constructor; [|done].
  rewrite list_elem_of_fmap. intros (r' & Heq & Hr').
  rewrite Forall_forall in Hr. specialize (Hr r' Hr'). unfold rowid_lt in Hr. lia.
Qed.

(** In ascending order the first match of a scan has the least rowid of
    all matches. *)
Lemma head_filter_least (P : mapping_row -> Prop)
    `{!forall r, Decision (P r)} rows r0 :
  StronglySorted rowid_lt rows ->
  head (filter P rows) = Some r0 ->
  forall r, r ∈ rows -> P r -> row_telegram_id r0 <= row_telegram_id r.
Proof.
  induction 1 as [|r1 rest Hs IH Hr1]; intros Hhead r Hr HP.
  - by apply not_elem_of_nil in Hr.
  - rewrite filter_cons in Hhead. destruct (decide (P r1)) as [HP1|HP1].
    + simpl in Hhead. simplify_eq.
      apply elem_of_cons in Hr as [->|Hr]; [lia|].
      rewrite Forall_forall in Hr1. specialize (Hr1 r Hr). unfold rowid_lt in Hr1. lia.
    + apply elem_of_cons in Hr as [->|Hr]; [done|]. by apply IH.
Qed.

Lemma mapping_table_ok_replace now t b rows :
  int64 t = true -> int64 b = true ->
  mapping_table_ok rows ->
  mapping_table_ok (replace_mapping_row (new_mapping_row now t b) rows).
Proof.
  intros Ht Hb [Hsorted Hrange]. unfold replace_mapping_row. split.
  - apply StronglySorted_rowid_insert; [by apply StronglySorted_filter|].
    intros r [Hr _]%list_elem_of_filter. by rewrite mapping_conflict_iff in Hr.
  - rewrite Forall_forall in *.
    intros r [->|[_ Hr]%list_elem_of_filter]%elem_of_rowid_insert; simpl; auto.
Qed.

Lemma mapping_table_ok_delete (P : mapping_row -> Prop)
    `{!forall r, Decision (P r)} rows :
  mapping_table_ok rows -> mapping_table_ok (filter P rows).
Proof.
  intros [Hsorted Hrange]. split; [by apply StronglySorted_filter|].
  rewrite Forall_forall in *. intros r [_ Hr]%list_elem_of_filter. auto.
Qed.

Lemma username_table_ok_replace (unew : username_row) (urows : list username_row) :
  username_table_ok urows -> username_table_ok (replace_username_row unew urows).
Proof.
  unfold username_table_ok, replace_username_row. intros Hnd.
  rewrite fmap_app. apply NoDup_app. split_and!.
  - eapply sublist_NoDup; [exact Hnd|].
    apply fmap_sublist, sublist_filter.
  - intros u (r & -> & [Hr _]%list_elem_of_filter)%list_elem_of_fmap.
    simpl. rewrite list_elem_of_singleton. done.
  - simpl. apply NoDup_singleton.
Qed.
End rows.

(** ** What each call does when no storage call fails *)

Ltac py_unfold :=
  cbv beta iota zeta delta
    [with_frame try_except try_finally get_db_connection bind ret raise lift
     get_local set_local sqlite3_connect cursor_execute_dml cursor_execute_query
     cursor_execute_ddl conn_commit conn_rollback conn_close fetchone fetchall
     fst snd durable current in_transaction].

(** Keep the body of the [for] loop folded while the rest is unfolded. *)
Ltac hide_loop :=
  set (loop_body :=
         (fun row : Z * Z =>
            bind (@get_local (gmap Z Z) Connection)
              (fun mappings => set_local (<[fst row := snd row]> mappings)))).
Ltac show_loop :=
  match goal with loop_body := _ |- _ => subst loop_body end.

Lemma for_each_insert {X} (fetched : list (Z * Z)) (m : gmap Z Z) (x : X) :
  for_each fetched
    (fun row => mappings <- get_local ;; set_local (<[fst row := snd row]> mappings))
    (m, x)
  = ((loop_result m fetched, x), Ok tt).
Proof.
  revert m. induction fetched as [|row rest IH]; intros m; [done|].
  simpl. unfold bind at 1. unfold bind at 1. simpl. apply IH.
Qed.

Lemma set_telegram_bitrix_mapping_id db rows :
  telegram_bitrix_mapping db = Some rows -> set_telegram_bitrix_mapping rows db = db.
Proof. destruct db; simpl; intros ->; done. Qed.

Section quiet_calls.
Context (env : Env) (Hquiet : no_faults env).

Lemma init_database_quiet db :
  exists db',
    init_database env db = (db', Ok tt)
    /\ telegram_bitrix_mapping db' =
         Some (default [] (telegram_bitrix_mapping db))
    /\ username_bitrix_mapping db' =
         Some (default [] (username_bitrix_mapping db)).
Proof.
  unfold init_database, CREATE_TABLE_telegram_bitrix_mapping,
    CREATE_TABLE_username_bitrix_mapping, CREATE_INDEX_idx_bitrix_user_id.
  py_unfold. rewrite ?Hquiet.
  destruct db as [[rows|] [urows|] idx]; simpl; rewrite ?Hquiet; eauto.
Qed.

Lemma save_telegram_mapping_quiet db rows t b :
  telegram_bitrix_mapping db = Some rows ->
  int64 t = true -> int64 b = true ->
  save_telegram_mapping env t b db =
    (set_telegram_bitrix_mapping
       (replace_mapping_row (new_mapping_row (CURRENT_TIMESTAMP env) t b) rows) db,
     Ok true).
Proof.
  intros Hrows Ht Hb.
  unfold save_telegram_mapping, INSERT_OR_REPLACE_INTO_telegram_bitrix_mapping.
  py_unfold. rewrite ?Hquiet, ?Hrows, ?Ht, ?Hb. simpl. by rewrite ?Hquiet.
Qed.

Lemma get_bitrix_user_id_quiet db rows t :
  telegram_bitrix_mapping db = Some rows ->
  int64 t = true ->
  get_bitrix_user_id env t db =
    (db, Ok (head (row_bitrix_user_id
                     <$> filter (fun r => row_telegram_id r = t) rows))).
Proof.
  intros Hrows Ht.
  unfold get_bitrix_user_id, SELECT_bitrix_user_id_WHERE_telegram_id.
  py_unfold. rewrite ?Hquiet, ?Hrows, ?Ht.
  destruct (head _); simpl; by rewrite ?Hquiet.
Qed.

Lemma get_telegram_id_quiet db rows b :
  telegram_bitrix_mapping db = Some rows ->
  int64 b = true ->
  get_telegram_id env b db =
    (db, Ok (head (row_telegram_id
                     <$> filter (fun r => row_bitrix_user_id r = b) rows))).
Proof.
  intros Hrows Hb.
  unfold get_telegram_id, SELECT_telegram_id_WHERE_bitrix_user_id.
  py_unfold. rewrite ?Hquiet, ?Hrows, ?Hb.
  destruct (head _); simpl; by rewrite ?Hquiet.
Qed.

Lemma load_all_telegram_mappings_quiet db rows :
  telegram_bitrix_mapping db = Some rows ->
  load_all_telegram_mappings env db = (db, Ok (loop_result ∅ (pairs_of rows))).
Proof.
  intros Hrows.
  unfold load_all_telegram_mappings, SELECT_telegram_id_bitrix_user_id.
  hide_loop. py_unfold. rewrite ?Hquiet, ?Hrows. show_loop.
  rewrite for_each_insert. by rewrite ?Hquiet.
Qed.

Lemma save_username_mapping_quiet db urows u b :
  username_bitrix_mapping db = Some urows ->
  int64 b = true ->
  save_username_mapping env u b db =
    (set_username_bitrix_mapping
       (replace_username_row
          (new_username_row (CURRENT_TIMESTAMP env) (lstrip u "@") b) urows) db,
     Ok true).
Proof.
  intros Hrows Hb.
  unfold save_username_mapping, INSERT_OR_REPLACE_INTO_username_bitrix_mapping.
  py_unfold. rewrite ?Hquiet, ?Hrows, ?Hb. simpl. by rewrite ?Hquiet.
Qed.

Lemma get_bitrix_user_id_by_username_quiet db urows u :
  username_bitrix_mapping db = Some urows ->
  get_bitrix_user_id_by_username env u db =
    (db, Ok (head (urow_bitrix_user_id
                     <$> filter (fun r => urow_telegram_username r = lstrip u "@")
                           urows))).
Proof.
  intros Hrows.
  unfold get_bitrix_user_id_by_username, SELECT_bitrix_user_id_WHERE_telegram_username.
  py_unfold. rewrite ?Hquiet, ?Hrows.
  destruct (head _); simpl; by rewrite ?Hquiet.
Qed.

Lemma delete_telegram_mapping_quiet db rows t :
  telegram_bitrix_mapping db = Some rows ->
  int64 t = true ->
  delete_telegram_mapping env t db =
    (set_telegram_bitrix_mapping
       (filter (fun r => row_telegram_id r <> t) rows) db,
     Ok (bool_decide (filter (fun r => row_telegram_id r = t) rows <> []))).
Proof.
  intros Hrows Ht.
  unfold delete_telegram_mapping, DELETE_FROM_telegram_bitrix_mapping.
  py_unfold. rewrite ?Hquiet, ?Hrows, ?Ht. simpl.
  destruct (filter (fun r => row_telegram_id r = t) rows) as [|r0 rest] eqn:Hf;
    simpl; by rewrite ?Hquiet.
Qed.

(** An integer outside SQLite's range makes the statement raise before it
    touches the table. *)
Lemma delete_telegram_mapping_overflow db t :
  int64 t = false -> delete_telegram_mapping env t db = (db, Ok false).
Proof.
  intros Ht.
  unfold delete_telegram_mapping, DELETE_FROM_telegram_bitrix_mapping.
  py_unfold. rewrite ?Hquiet, ?Ht.
  destruct (telegram_bitrix_mapping db); simpl; by rewrite ?Hquiet.
Qed.
End quiet_calls.

(** ** Leaving the [with] block *)

Lemma get_db_connection_leave {L A} env (body : ST (L * Connection) A) (l : L) db :
  get_db_connection env body (l, db) =
    match fault env Connect with
    | Some e => ((l, db), Raise e)
    | None =>
      match body (l, fresh db) with
      | ((l', c), r) =>
        match leave env c r with
        | (c', r') => ((l', durable c'), r')
        end
      end
    end.
Proof.
  unfold get_db_connection, sqlite3_connect, fresh. simpl.
  destruct (fault env Connect); [done|].
  unfold leave, try_finally, try_except, bind, lift, ret, raise. simpl.
  destruct (body _) as [[l' [d c t]] [a|e]]; simpl;
    unfold conn_commit, conn_rollback, conn_close; simpl;
    destruct t; simpl;
    repeat (match goal with
            | |- context [fault env ?s] => destruct (fault env s) eqn:?
            | |- context [is_Exception ?e] => destruct (is_Exception e) eqn:?
            end; simpl); reflexivity.
Qed.

(** One of the module's accessors, [try: with get_db_connection() as conn:
    body except Exception: return failure], in terms of its body. *)
Lemma accessor_leave {A} env (body : ST (unit * Connection) A) (failure : A) db :
  with_frame tt
    (try_except (get_db_connection env body) (fun _ => ret failure)) db =
    match fault env Connect with
    | Some e => (db, guard failure (Raise e))
    | None =>
      match body (tt, fresh db) with
      | ((_, c), r) =>
        match leave env c r with
        | (c', r') => (durable c', guard failure r')
        end
      end
    end.
Proof.
  unfold with_frame, try_except. rewrite get_db_connection_leave.
  destruct (fault env Connect) as [e|]; simpl.
  { unfold ret. by destruct (is_Exception e). }
  destruct (body _) as [[[] c] r]. destruct (leave env c r) as [c' [a|e]]; simpl; [done|].
  unfold ret. by destruct (is_Exception e).
Qed.

Ltac leave_cases env c :=
  unfold leave, try_finally, try_except, bind, ret, raise,
    conn_commit, conn_rollback, conn_close;
  destruct c as [? ? []]; simpl;
  destruct (fault env Commit) as [?e|] eqn:?; simpl;
  destruct (fault env Rollback) as [?e|] eqn:?; simpl;
  destruct (fault env Close) as [?e|] eqn:?; simpl;
  repeat (match goal with
          | |- context [is_Exception ?e] => is_var e; destruct (is_Exception e) eqn:?
          end; simpl).

(** The file keeps what it held, unless the body ended normally inside a
    transaction: then it may hold what the connection saw. *)
Lemma leave_durable {A} env c (r : result A) :
  durable (fst (leave env c r)) = durable c
  \/ (in_transaction c = true /\ (exists a, r = Ok a)
      /\ durable (fst (leave env c r)) = current c).
Proof.
  destruct r as [a|e]; leave_cases env c;
    solve [by left | right; split_and!; [done|by eexists|done]].
Qed.

(** A normal end of the whole block means the body ended normally and its
    transaction, if any, is committed. *)
Lemma leave_Ok {A} env c (r : result A) a :
  snd (leave env c r) = Ok a ->
  r = Ok a
  /\ fault env Close = None
  /\ (in_transaction c = true -> fault env Commit = None)
  /\ durable (fst (leave env c r)) =
       (if in_transaction c then current c else durable c).
Proof. destruct r as [a'|e]; leave_cases env c; intros; simplify_eq; done. Qed.

(** The block ends as the body did, or in an exception. *)
Lemma leave_result {A} env c (r : result A) :
  snd (leave env c r) = r \/ exists e, snd (leave env c r) = Raise e.
Proof. destruct r as [a|e]; leave_cases env c; eauto. Qed.

Lemma leave_close_fails {A} env c (r : result A) :
  fault env Close <> None -> exists e, snd (leave env c r) = Raise e.
Proof. destruct r as [a|e]; leave_cases env c; intros; eauto; done. Qed.

Lemma leave_commit_fails {A} env c (r : result A) :
  in_transaction c = true -> fault env Commit <> None ->
  exists e, snd (leave env c r) = Raise e.
Proof. destruct r as [a|e]; leave_cases env c; intros; eauto; done. Qed.

(** Storage failures and an [Exception] from the body leave the block as
    an [Exception]. *)
Lemma leave_Exception {A} env c (r : result A) e :
  storage_faults env ->
  (forall e0, r = Raise e0 -> is_Exception e0 = true) ->
  snd (leave env c r) = Raise e -> is_Exception e = true.
Proof.
  intros Hsf Hr. destruct r as [a|e0]; leave_cases env c; intros; simplify_eq;
    eauto.
Qed.

(** ** What each call does whatever fails *)

Ltac unfold_calls :=
  unfold init_database, save_telegram_mapping, get_bitrix_user_id, get_telegram_id,
    get_all_mappings, load_all_telegram_mappings, save_username_mapping,
    get_bitrix_user_id_by_username, delete_telegram_mapping.

Ltac unfold_statements :=
  unfold CREATE_TABLE_telegram_bitrix_mapping, CREATE_TABLE_username_bitrix_mapping,
    CREATE_INDEX_idx_bitrix_user_id,
    INSERT_OR_REPLACE_INTO_telegram_bitrix_mapping,
    SELECT_bitrix_user_id_WHERE_telegram_id, SELECT_telegram_id_WHERE_bitrix_user_id,
    SELECT_telegram_id_bitrix_user_id, INSERT_OR_REPLACE_INTO_username_bitrix_mapping,
    SELECT_bitrix_user_id_WHERE_telegram_username, DELETE_FROM_telegram_bitrix_mapping.

(** Run the body of an accessor's [with] block, one case per way its single
    statement can go. *)
Ltac run_body env db :=
  unfold bind, lift, ret, cursor_execute_dml, cursor_execute_query, fetchone, fresh;
  unfold_statements; simpl;
  destruct (fault env (Execute 0)) as [?e|] eqn:?; simpl;
  [|repeat (match goal with
            | |- context [telegram_bitrix_mapping db] =>
              destruct (telegram_bitrix_mapping db) as [?rows|] eqn:?
            | |- context [username_bitrix_mapping db] =>
              destruct (username_bitrix_mapping db) as [?urows|] eqn:?
            | |- context [int64 ?z] => destruct (int64 z) eqn:?
            | |- context [0 <? ?z] => destruct (0 <? z) eqn:?
            | |- context [head ?l] => destruct (head l) eqn:?
            end; simpl)].

(** Name what leaving the block yields and recall what is known of it. *)
Ltac use_leave :=
  match goal with
  | |- context [leave ?env ?c0 ?r0] =>
    pose proof (leave_durable env c0 r0);
    pose proof (leave_Ok env c0 r0);
    pose proof (leave_result env c0 r0);
    pose proof (leave_close_fails env c0 r0);
    pose proof (leave_commit_fails env c0 r0);
    pose proof (leave_Exception env c0 r0);
    destruct (leave env c0 r0) as [?conn [?a|?e]]; simpl in *
  end.

Ltac open_accessor env db :=
  unfold_calls; cbv zeta; rewrite accessor_leave;
  destruct (fault env Connect) as [?e|] eqn:?; simpl;
  [|run_body env db; use_leave].

(** The lookups never write. *)
Lemma get_bitrix_user_id_frame env t db : fst (get_bitrix_user_id env t db) = db.
Proof. open_accessor env db; intuition congruence. Qed.

Lemma get_telegram_id_frame env b db : fst (get_telegram_id env b db) = db.
Proof. open_accessor env db; intuition congruence. Qed.

Lemma get_bitrix_user_id_by_username_frame env u db :
  fst (get_bitrix_user_id_by_username env u db) = db.
Proof. open_accessor env db; intuition congruence. Qed.

Lemma load_all_telegram_mappings_frame env db :
  fst (load_all_telegram_mappings env db) = db.
Proof.
  unfold_calls. unfold with_frame, bind at 1, try_except.
  rewrite get_db_connection_leave.
  destruct (fault env Connect) as [e|] eqn:?; simpl.
  { unfold ret, get_local. by destruct (is_Exception e). }
  unfold bind at 1, lift at 1, cursor_execute_query, fetchall, fresh.
  unfold_statements; simpl.
  destruct (fault env (Execute 0)) as [e|] eqn:?; simpl;
    [|destruct (telegram_bitrix_mapping db) as [rows|] eqn:?; simpl;
      [rewrite for_each_insert|]];
    use_leave; unfold ret, get_local; simpl;
    repeat (match goal with
            | |- context [is_Exception ?e] => destruct (is_Exception e)
            end; simpl);
    intuition congruence.
Qed.

(** Decide what [except Exception] does with each exception in sight. *)
Ltac guard_cases :=
  unfold guard in *; simpl in *;
  repeat (match goal with
          | |- context [is_Exception ?e] => destruct (is_Exception e) eqn:?
          end; simpl in *).

(** The file is as before, or as the committed statement left it. *)
Ltac file_cases tac :=
  match goal with
  | H : _ = _ \/ _ |- _ =>
    destruct H as [->|(? & ? & ->)];
    [by left | first [done | right; tac]]
  end.

(** A writing call leaves the file alone or as its statement left it. *)
Lemma save_telegram_mapping_file env t b db :
  fst (save_telegram_mapping env t b db) = db
  \/ mapping_saved env t b db (fst (save_telegram_mapping env t b db)).
Proof.
  open_accessor env db; [by left|..];
    file_cases ltac:(by eexists).
Qed.

Lemma save_username_mapping_file env u b db :
  fst (save_username_mapping env u b db) = db
  \/ username_saved env u b db (fst (save_username_mapping env u b db)).
Proof.
  open_accessor env db; [by left|..];
    file_cases ltac:(by eexists).
Qed.

Lemma delete_telegram_mapping_file env t db :
  fst (delete_telegram_mapping env t db) = db
  \/ mapping_deleted t db (fst (delete_telegram_mapping env t db)).
Proof.
  open_accessor env db; [by left|..];
    file_cases ltac:(by eexists).
Qed.

(** The outcome of leaving the block, read off [leave_Ok]. *)
Ltac committed :=
  guard_cases; intros; simplify_eq;
  match goal with
  | H : forall a, Ok ?x = Ok a -> _ |- _ =>
    destruct (H x eq_refl) as (? & ? & ? & ?); simplify_eq
  end.

(** A save that reports success has replaced the row. *)
Lemma save_telegram_mapping_true env t b db :
  snd (save_telegram_mapping env t b db) = Ok true ->
  mapping_saved env t b db (fst (save_telegram_mapping env t b db)).
Proof.
  open_accessor env db; [by guard_cases|..]; committed.
  by eexists.
Qed.

Lemma save_username_mapping_true env u b db :
  snd (save_username_mapping env u b db) = Ok true ->
  username_saved env u b db (fst (save_username_mapping env u b db)).
Proof.
  open_accessor env db; [by guard_cases|..]; committed.
  by eexists.
Qed.

(** A delete that reports success has removed a row that was there. *)
Lemma delete_telegram_mapping_true env t db :
  snd (delete_telegram_mapping env t db) = Ok true ->
  mapping_deleted t db (fst (delete_telegram_mapping env t db))
  /\ exists rows,
       telegram_bitrix_mapping db = Some rows
       /\ filter (fun r => row_telegram_id r = t) rows <> [].
Proof.
  open_accessor env db; [by guard_cases|..]; committed.
  split; [by eexists|]. eexists; split; [done|].
  intros Hnil. rewrite Hnil in *. done.
Qed.

(** [init_database] creates what is missing and touches nothing else,
    however far it gets. *)
Lemma init_database_tables env db :
  (telegram_bitrix_mapping (fst (init_database env db)) = telegram_bitrix_mapping db
   \/ (telegram_bitrix_mapping db = None
       /\ telegram_bitrix_mapping (fst (init_database env db)) = Some []))
  /\ (username_bitrix_mapping (fst (init_database env db)) = username_bitrix_mapping db
      \/ (username_bitrix_mapping db = None
          /\ username_bitrix_mapping (fst (init_database env db)) = Some [])).
Proof.
  unfold_calls. unfold with_frame, try_except. rewrite get_db_connection_leave.
  destruct (fault env Connect) as [e|] eqn:?; simpl.
  { unfold raise. destruct (is_Exception e); simpl; auto. }
  unfold bind, lift, cursor_execute_ddl, fresh. unfold_statements. simpl.
  destruct db as [rows urows idx]; simpl.
  destruct (fault env (Execute 0)) as [?e|] eqn:?; simpl;
    [|destruct rows as [rows|]; simpl;
      (destruct (fault env (Execute 1)) as [?e|] eqn:?; simpl;
       [|destruct urows as [urows|]; simpl;
         (destruct (fault env (Execute 2)) as [?e|] eqn:?; simpl)])].
  all: use_leave; unfold raise; guard_cases;
    match goal with
    | H : _ = _ \/ _ |- _ => destruct H as [->|(? & ? & ->)]; [|done]
    end; simpl; auto.
Qed.

(** ** Failures stay inside the calls *)

Ltac failed_step :=
  let s := fresh "s" in
  let Hs := fresh "Hs" in
  let Hf := fresh "Hf" in
  intros (s & Hs & Hf);
  repeat (apply elem_of_cons in Hs as [->|Hs]);
  try (by apply not_elem_of_nil in Hs).

(** An exception that leaves the block is an [Exception]: the storage
    raises nothing else, and neither do the statements. *)
Ltac only_Exceptions Hsf :=
  exfalso;
  first
    [ match goal with
      | H : fault _ _ = Some ?e, H2 : is_Exception ?e = false |- _ =>
        apply Hsf in H; congruence
      end
    | match goal with
      | H : forall e1, storage_faults _ -> _,
        H2 : is_Exception ?e = false |- _ =>
        assert (is_Exception e = true)
          by (apply H;
              [exact Hsf
              |intros ? ?; simplify_eq; first [done | by eapply Hsf]
              |done]);
        congruence
      end ].

(** A listed storage call failed, yet the block was left normally. *)
Ltac left_normally :=
  match goal with
  | H : forall a, Ok ?x = Ok a -> _ |- _ =>
    destruct (H x eq_refl) as (? & ? & ? & ?); simplify_eq;
    first [done | congruence | intuition congruence]
  end.

Ltac contain Hsf env db :=
  unfold contained; open_accessor env db; guard_cases;
  first
    [ eexists; split; [reflexivity|]; failed_step;
      first [done | congruence | left_normally]
    | only_Exceptions Hsf ].

Section containment.
Context (env : Env) (Hsf : storage_faults env).

Lemma save_telegram_mapping_contained t b db :
  contained false [Connect; Execute 0; Commit; Close] env
    (save_telegram_mapping env t b db).
Proof. contain Hsf env db. Qed.

Lemma save_username_mapping_contained u b db :
  contained false [Connect; Execute 0; Commit; Close] env
    (save_username_mapping env u b db).
Proof. contain Hsf env db. Qed.

Lemma delete_telegram_mapping_contained t db :
  contained false [Connect; Execute 0; Commit; Close] env
    (delete_telegram_mapping env t db).
Proof. contain Hsf env db. Qed.

Lemma get_bitrix_user_id_contained t db :
  contained None [Connect; Execute 0; Close] env (get_bitrix_user_id env t db).
Proof. contain Hsf env db. Qed.

Lemma get_telegram_id_contained b db :
  contained None [Connect; Execute 0; Close] env (get_telegram_id env b db).
Proof. contain Hsf env db. Qed.

Lemma get_bitrix_user_id_by_username_contained u db :
  contained None [Connect; Execute 0; Close] env
    (get_bitrix_user_id_by_username env u db).
Proof. contain Hsf env db. Qed.
End containment.

Lemma load_all_telegram_mappings_contained env db :
  storage_faults env ->
  contained (∅ : gmap Z Z) [Connect; Execute 0] env
    (load_all_telegram_mappings env db).
Proof.
  intros Hsf. unfold contained.
  unfold_calls. unfold with_frame, bind at 1, try_except.
  rewrite get_db_connection_leave.
  destruct (fault env Connect) as [e|] eqn:?; simpl.
  { unfold ret, get_local. destruct (is_Exception e) eqn:?; simpl;
      [by eexists|only_Exceptions Hsf]. }
  unfold bind at 1, lift at 1, cursor_execute_query, fetchall, fresh.
  unfold_statements; simpl.
  destruct (fault env (Execute 0)) as [e|] eqn:?; simpl;
    [|destruct (telegram_bitrix_mapping db) as [rows|] eqn:?; simpl;
      [rewrite for_each_insert|]];
    use_leave; unfold ret, get_local; guard_cases;
    first
      [ eexists; split; [reflexivity|]; try done; failed_step;
        first [done | congruence | left_normally]
      | only_Exceptions Hsf ].
Qed.

(** [init_database] re-raises: a failed connection reaches the caller. *)
Lemma init_database_propagates env e db :
  fault env Connect = Some e -> init_database env db = (db, Raise e).
Proof.
  intros Hf. unfold_calls. unfold with_frame, try_except.
  rewrite get_db_connection_leave, Hf. unfold raise. by destruct (is_Exception e).
Qed.

(** What is not an [Exception] is not caught by the accessors either. *)
Lemma save_telegram_mapping_interrupted env t b db :
  fault env Connect = Some KeyboardInterrupt ->
  save_telegram_mapping env t b db = (db, Raise KeyboardInterrupt).
Proof. intros Hf. unfold_calls. by rewrite accessor_leave, Hf. Qed.

(** ** The representation invariant *)

Lemma database_ok_empty_file : database_ok empty_file.
Proof. split; intros rows Hrows; discriminate. Qed.

Lemma exec_database_ok env c db : database_ok db -> database_ok (exec env c db).
Proof.
  intros [Hm Hu]. destruct c as [|t b|t|b| |u b|u|t|]; simpl.
  - destruct (init_database_tables env db) as [[Ht|[Ht Ht']] [Hn|[Hn Hn']]];
      split; intros rows Hrows.
    all: first [ apply Hm; congruence | apply Hu; congruence
               | simplify_eq; split; constructor
               | simplify_eq; constructor ].
  - destruct (save_telegram_mapping_file env t b db) as [->|(rows & Hr & Ht & Hb & ->)];
      [done|].
    split; simpl; [|done]. intros ? [= <-].
    apply mapping_table_ok_replace; auto.
  - by rewrite get_bitrix_user_id_frame.
  - by rewrite get_telegram_id_frame.
  - by rewrite load_all_telegram_mappings_frame.
  - destruct (save_username_mapping_file env u b db) as [->|(urows & Hr & Hb & ->)];
      [done|].
    split; simpl; [done|]. intros ? [= <-].
    apply username_table_ok_replace; auto.
  - by rewrite get_bitrix_user_id_by_username_frame.
  - destruct (delete_telegram_mapping_file env t db) as [->|(rows & Hr & Ht & ->)];
      [done|].
    split; simpl; [|done]. intros ? [= <-].
    apply mapping_table_ok_delete; auto.
  - unfold get_all_mappings. by rewrite load_all_telegram_mappings_frame.
Qed.

Lemma run_database_ok history db : database_ok db -> database_ok (run history db).
Proof.
  revert db. induction history as [|[env c] rest IH]; intros db Hok; [done|].
  simpl. by apply IH, exec_database_ok.
Qed.

Lemma reachable_database_ok db : reachable db -> database_ok db.
Proof. intros [history <-]. apply run_database_ok, database_ok_empty_file. Qed.

Lemma reachable_exec env c db : reachable db -> reachable (exec env c db).
Proof.
  intros [history <-]. exists (history ++ [(env, c)]).
  generalize empty_file. induction history as [|[env' c'] rest IH]; intros db0; [done|].
  simpl. apply IH.
Qed.

(** ** Scans after a write *)

Lemma filter_telegram_id_replace now t b rows :
  filter (fun r => row_telegram_id r = t)
    (replace_mapping_row (new_mapping_row now t b) rows)
  = [new_mapping_row now t b].
Proof.
  unfold replace_mapping_row. apply filter_rowid_insert_only; [done|].
  intros r [Hr _]%list_elem_of_filter. by rewrite mapping_conflict_iff in Hr.
Qed.

Lemma filter_bitrix_user_id_replace now t b rows :
  (forall r, r ∈ rows -> row_telegram_id r <> t -> row_bitrix_user_id r <> b) ->
  filter (fun r => row_bitrix_user_id r = b)
    (replace_mapping_row (new_mapping_row now t b) rows)
  = [new_mapping_row now t b].
Proof.
  intros Hother. unfold replace_mapping_row.
  apply filter_rowid_insert_only; [done|].
  intros r [Hr Hin]%list_elem_of_filter. rewrite mapping_conflict_iff in Hr. auto.
Qed.

Lemma filter_username_replace now u b (urows : list username_row) :
  filter (fun r => urow_telegram_username r = u)
    (replace_username_row (new_username_row now u b) urows)
  = [new_username_row now u b].
Proof.
  unfold replace_username_row. rewrite filter_app, filter_cons_True by done.
  rewrite filter_nil, filter_none; [done|].
  apply Forall_forall. by intros r [Hr _]%list_elem_of_filter.
Qed.

Lemma filter_telegram_id_deleted t rows :
  filter (fun r => row_telegram_id r = t)
    (filter (fun r => row_telegram_id r <> t) rows) = [].
Proof.
  apply filter_none, Forall_forall. by intros r [Hr _]%list_elem_of_filter.
Qed.

Lemma filter_nonempty {A} (P : A -> Prop) `{!forall x, Decision (P x)} (l : list A) :
  filter P l <> [] <-> exists x, x ∈ l /\ P x.
Proof.
  split.
  - destruct (filter P l) as [|x rest] eqn:Hf; [done|]. intros _.
    exists x. apply and_comm, (list_elem_of_filter P). rewrite Hf. left.
  - intros (x & Hx & HP) Hnil.
    assert (x ∈ filter P l) as Hin by by apply list_elem_of_filter.
    rewrite Hnil in Hin. by apply not_elem_of_nil in Hin.
Qed.

(** * Properties of the mapping store *)

(** ** C1: save, then look up by Telegram ID *)

(** C1.  For every pair [(telegram_id, bitrix_user_id)] that SQLite can
    store, on a file whose mapping table exists and with no storage failure,
    [save_telegram_mapping] reports success and [get_bitrix_user_id] of the
    same [telegram_id] on the resulting file returns that
    [bitrix_user_id]. *)
Theorem save_then_get_bitrix_user_id env1 env2 db t b :
  no_faults env1 -> no_faults env2 ->
  is_Some (telegram_bitrix_mapping db) ->
  int64 t = true -> int64 b = true ->
  snd (save_telegram_mapping env1 t b db) = Ok true
  /\ snd (get_bitrix_user_id env2 t (fst (save_telegram_mapping env1 t b db)))
     = Ok (Some b).
Proof.
  intros Hq1 Hq2 [rows Hrows] Ht Hb.
  rewrite (save_telegram_mapping_quiet env1 Hq1 db rows) by done. simpl.
  split; [done|].
  erewrite (get_bitrix_user_id_quiet env2 Hq2) by done.
  by rewrite filter_telegram_id_replace.
Qed.

Lemma quiet_no_faults now : no_faults (quiet now).
Proof. intros s. reflexivity. Defined.

Lemma save_then_get_bitrix_user_id_witness :
  snd (save_telegram_mapping (quiet 1) 42 7 initialized) = Ok true
  /\ snd (get_bitrix_user_id (quiet 2) 42
            (fst (save_telegram_mapping (quiet 1) 42 7 initialized)))
     = Ok (Some 7).
Proof.
  apply save_then_get_bitrix_user_id;
    [apply quiet_no_faults | apply quiet_no_faults | by eexists | reflexivity | reflexivity].
Defined.

(** The same holds after any save that reported success, whatever else
    failed or did not. *)
Lemma saved_then_get_bitrix_user_id env1 env2 db t b :
  no_faults env2 ->
  snd (save_telegram_mapping env1 t b db) = Ok true ->
  snd (get_bitrix_user_id env2 t (fst (save_telegram_mapping env1 t b db)))
  = Ok (Some b).
Proof.
  intros Hq2 (rows & Hrows & Ht & Hb & ->)%save_telegram_mapping_true.
  erewrite (get_bitrix_user_id_quiet env2 Hq2) by done.
  by rewrite filter_telegram_id_replace.
Qed.

(** ** C3: reverse lookup *)

(** C3.  After [save_telegram_mapping telegram_id bitrix_user_id] on a file
    in which no other row carries that [bitrix_user_id],
    [get_telegram_id bitrix_user_id] returns [telegram_id]; with
    [(42, 7)] on an empty table it returns 42. *)
Theorem save_then_get_telegram_id env1 env2 db rows t b :
  no_faults env1 -> no_faults env2 ->
  telegram_bitrix_mapping db = Some rows ->
  int64 t = true -> int64 b = true ->
  (forall r, r ∈ rows -> row_telegram_id r <> t -> row_bitrix_user_id r <> b) ->
  snd (get_telegram_id env2 b (fst (save_telegram_mapping env1 t b db)))
  = Ok (Some t).
Proof.
  intros Hq1 Hq2 Hrows Ht Hb Hother.
  rewrite (save_telegram_mapping_quiet env1 Hq1 db rows) by done. simpl.
  erewrite (get_telegram_id_quiet env2 Hq2) by done.
  by rewrite filter_bitrix_user_id_replace.
Qed.

Lemma save_then_get_telegram_id_witness :
  snd (get_telegram_id (quiet 2) 7
         (fst (save_telegram_mapping (quiet 1) 42 7 initialized)))
  = Ok (Some 42).
Proof.
  apply (save_then_get_telegram_id (quiet 1) (quiet 2) initialized []);
    [apply quiet_no_faults | apply quiet_no_faults
    | reflexivity | reflexivity | reflexivity
    | intros r Hr; by apply not_elem_of_nil in Hr].
Defined.

(** A save leaves the rows of the other Telegram IDs as they were: the
    lookup of another ID answers as before. *)
Lemma save_then_get_other env1 env2 db t b t' :
  no_faults env1 -> no_faults env2 ->
  is_Some (telegram_bitrix_mapping db) ->
  int64 t = true -> int64 b = true ->
  t' <> t ->
  snd (get_bitrix_user_id env2 t' (fst (save_telegram_mapping env1 t b db)))
  = snd (get_bitrix_user_id env2 t' db).
Proof.
  intros Hq1 Hq2 [rows Hrows] Ht Hb Hne.
  rewrite (save_telegram_mapping_quiet env1 Hq1 db rows) by done. simpl.
  destruct (int64 t') eqn:Ht'.
  - assert (filter (fun r => row_telegram_id r = t')
              (replace_mapping_row (new_mapping_row (CURRENT_TIMESTAMP env1) t b) rows)
            = filter (fun r => row_telegram_id r = t') rows) as Hsame.
    { unfold replace_mapping_row.
      rewrite filter_rowid_insert_skip by (simpl; congruence).
      rewrite list_filter_filter.
      apply list_filter_iff. intros r. rewrite mapping_conflict_iff. simpl.
      split; [tauto|]. intros ->. done. }
    erewrite (get_bitrix_user_id_quiet env2 Hq2 (set_telegram_bitrix_mapping _ db))
      by done.
    rewrite (get_bitrix_user_id_quiet env2 Hq2 db rows) by done. simpl.
    by rewrite Hsame.
  - unfold get_bitrix_user_id, SELECT_bitrix_user_id_WHERE_telegram_id.
    py_unfold. by rewrite ?Hq2, ?Hrows, ?Ht'.
Qed.

(** ** C2: one row per Telegram ID *)

(** C2.  In every state the module's calls can reach, the mapping table
    holds at most one row per [telegram_id]; and from any such state with
    the table created, saving [(42, 7)] and then [(42, 9)] leaves exactly
    one row for 42, and [get_bitrix_user_id 42] returns 9. *)
Theorem one_row_per_telegram_id db :
  reachable db ->
  (forall rows,
     telegram_bitrix_mapping db = Some rows -> NoDup (row_telegram_id <$> rows))
  /\ (forall env1 env2 env3,
        no_faults env1 -> no_faults env2 -> no_faults env3 ->
        is_Some (telegram_bitrix_mapping db) ->
        let db' := fst (save_telegram_mapping env2 42 9
                          (fst (save_telegram_mapping env1 42 7 db))) in
        (exists rows',
           telegram_bitrix_mapping db' = Some rows'
           /\ length (filter (fun r => row_telegram_id r = 42) rows') = 1%nat
           /\ NoDup (row_telegram_id <$> rows'))
        /\ snd (get_bitrix_user_id env3 42 db') = Ok (Some 9)).
Proof.
  intros Hreach. split.
  - intros rows Hrows. apply StronglySorted_NoDup.
    by apply (reachable_database_ok db Hreach).
  - intros env1 env2 env3 Hq1 Hq2 Hq3 [rows Hrows] db'.
    assert (reachable db') as Hreach'.
    { apply (reachable_exec env2 (call_save_telegram_mapping 42 9)).
      by apply (reachable_exec env1 (call_save_telegram_mapping 42 7)). }
    subst db'. revert Hreach'.
    rewrite (save_telegram_mapping_quiet env1 Hq1 db rows) by done. simpl.
    erewrite (save_telegram_mapping_quiet env2 Hq2) by done. simpl.
    intros Hreach'. split.
    + eexists. split; [reflexivity|]. split.
      * by rewrite filter_telegram_id_replace.
      * apply StronglySorted_NoDup.
        by apply (reachable_database_ok _ Hreach').
    + erewrite (get_bitrix_user_id_quiet env3 Hq3) by done.
      by rewrite filter_telegram_id_replace.
Qed.

Lemma reachable_initialized : reachable initialized.
Proof. exists [(quiet 0, call_init_database)]. reflexivity. Defined.

Lemma one_row_per_telegram_id_witness :
  (forall rows,
     telegram_bitrix_mapping initialized = Some rows ->
     NoDup (row_telegram_id <$> rows))
  /\ snd (get_bitrix_user_id (quiet 3) 42
            (fst (save_telegram_mapping (quiet 2) 42 9
                    (fst (save_telegram_mapping (quiet 1) 42 7 initialized)))))
     = Ok (Some 9).
Proof.
  destruct (one_row_per_telegram_id initialized reachable_initialized) as [Hone Hupsert].
  split; [exact Hone|].
  apply (Hupsert (quiet 1) (quiet 2) (quiet 3));
    [apply quiet_no_faults | apply quiet_no_faults | apply quiet_no_faults
    | by eexists].
Defined.

(** ** C4: handles with and without the sigil *)

(** Save and lookup strip the handle the same way, so they meet whenever
    the stripped handles agree. *)
Lemma save_username_then_get env1 env2 db u u' b :
  no_faults env1 -> no_faults env2 ->
  is_Some (username_bitrix_mapping db) ->
  int64 b = true ->
  lstrip u' "@" = lstrip u "@" ->
  snd (get_bitrix_user_id_by_username env2 u'
         (fst (save_username_mapping env1 u b db)))
  = Ok (Some b).
Proof.
  intros Hq1 Hq2 [urows Hrows] Hb Hstrip.
  rewrite (save_username_mapping_quiet env1 Hq1 db urows) by done. simpl.
  erewrite (get_bitrix_user_id_by_username_quiet env2 Hq2) by done.
  by rewrite Hstrip, filter_username_replace.
Qed.

(** C4.  For every [bitrix_user_id] that SQLite can store, after
    [save_username_mapping "@alice" bitrix_user_id] both
    [get_bitrix_user_id_by_username "alice"] and
    [get_bitrix_user_id_by_username "@alice"] return that
    [bitrix_user_id]. *)
Theorem alice_with_and_without_sigil env1 env2 env3 db b :
  no_faults env1 -> no_faults env2 -> no_faults env3 ->
  is_Some (username_bitrix_mapping db) ->
  int64 b = true ->
  let db' := fst (save_username_mapping env1 "@alice" b db) in
  snd (get_bitrix_user_id_by_username env2 "alice" db') = Ok (Some b)
  /\ snd (get_bitrix_user_id_by_username env3 "@alice" db') = Ok (Some b).
Proof.
  intros Hq1 Hq2 Hq3 Hsome Hb db'. subst db'.
  split; by apply save_username_then_get.
Qed.

Lemma alice_with_and_without_sigil_witness :
  snd (get_bitrix_user_id_by_username (quiet 2) "alice"
         (fst (save_username_mapping (quiet 1) "@alice" 7 initialized)))
  = Ok (Some 7)
  /\ snd (get_bitrix_user_id_by_username (quiet 3) "@alice"
            (fst (save_username_mapping (quiet 1) "@alice" 7 initialized)))
     = Ok (Some 7).
Proof.
  apply (alice_with_and_without_sigil (quiet 1) (quiet 2) (quiet 3) initialized 7);
    [apply quiet_no_faults | apply quiet_no_faults | apply quiet_no_faults
    | by eexists | reflexivity].
Defined.

(** ** C5: delete *)

(** C5.  On a reachable file whose mapping table exists, with no storage
    failure, [delete_telegram_mapping telegram_id] returns [True] exactly
    when a row for [telegram_id] was there, after which
    [get_bitrix_user_id telegram_id] returns [None]; it returns [False] when no
    row was there, and then the file is unchanged. *)
Theorem delete_telegram_mapping_spec env env' db rows t :
  reachable db ->
  no_faults env -> no_faults env' ->
  telegram_bitrix_mapping db = Some rows ->
  exists deleted : bool,
    snd (delete_telegram_mapping env t db) = Ok deleted
    /\ (deleted = true <-> exists r, r ∈ rows /\ row_telegram_id r = t)
    /\ (deleted = true ->
        snd (get_bitrix_user_id env' t (fst (delete_telegram_mapping env t db)))
        = Ok None)
    /\ (deleted = false -> fst (delete_telegram_mapping env t db) = db).
Proof.
  intros Hreach Hq Hq' Hrows.
  destruct (int64 t) eqn:Ht.
  - rewrite (delete_telegram_mapping_quiet env Hq db rows) by done. simpl.
    eexists. split; [reflexivity|]. split_and!.
    + rewrite bool_decide_eq_true. apply filter_nonempty.
    + intros _. erewrite (get_bitrix_user_id_quiet env' Hq') by done.
      by rewrite filter_telegram_id_deleted.
    + rewrite bool_decide_eq_false. intros Hnone.
      rewrite filter_all; [by apply set_telegram_bitrix_mapping_id|].
      apply Forall_forall. intros r Hr Heq. apply Hnone, filter_nonempty. eauto.
  - rewrite (delete_telegram_mapping_overflow env Hq) by done. simpl.
    exists false. split_and!; [done| |done|done].
    split; [done|]. intros (r & Hr & <-).
    destruct (reachable_database_ok db Hreach) as [Hm _].
    destruct (Hm rows Hrows) as [_ Hrange].
    rewrite Forall_forall in Hrange. destruct (Hrange r Hr). congruence.
Qed.

Lemma delete_telegram_mapping_spec_witness :
  exists deleted : bool,
    snd (delete_telegram_mapping (quiet 1) 42 initialized) = Ok deleted
    /\ (deleted = true <-> exists r, r ∈ [] /\ row_telegram_id r = 42)
    /\ (deleted = true ->
        snd (get_bitrix_user_id (quiet 2) 42
               (fst (delete_telegram_mapping (quiet 1) 42 initialized)))
        = Ok None)
    /\ (deleted = false ->
        fst (delete_telegram_mapping (quiet 1) 42 initialized) = initialized).
Proof.
  apply (delete_telegram_mapping_spec (quiet 1) (quiet 2) initialized [] 42);
    [apply reachable_initialized | apply quiet_no_faults | apply quiet_no_faults
    | reflexivity].
Defined.

(** ** C6: bulk load *)

(** With distinct keys the loop builds the dictionary of the fetched pairs. *)
Lemma loop_result_list_to_map (m : gmap Z Z) (fetched : list (Z * Z)) :
  NoDup (fetched.*1) ->
  loop_result m fetched = list_to_map fetched ∪ m.
Proof.
  revert m. induction fetched as [|[k v] rest IH]; intros m Hnd.
  - unfold loop_result. simpl. by rewrite (left_id_L ∅ (∪)).
  - rewrite fmap_cons in Hnd. apply NoDup_cons in Hnd as [Hk Hnd].
    unfold loop_result in *. cbn [foldl fst snd]. rewrite IH by done.
    rewrite list_to_map_cons, <-insert_union_l. symmetry.
    apply insert_union_r. by apply not_elem_of_list_to_map_1.
Qed.

(** Saves under fresh keys add their pairs to the table. *)
Lemma save_all_pairs saves : forall db rows,
  telegram_bitrix_mapping db = Some rows ->
  Forall valid_save saves ->
  NoDup ((row_telegram_id <$> rows) ++ (snd <$> saves).*1) ->
  exists rows',
    telegram_bitrix_mapping (save_all saves db) = Some rows'
    /\ pairs_of rows' ≡ₚ pairs_of rows ++ (snd <$> saves).
Proof.
  induction saves as [|[env [t b]] rest IH]; intros db rows Hrows Hvalid Hnd; simpl.
  - exists rows. by rewrite (right_id_L [] (++)).
  - apply Forall_cons in Hvalid as [(Hq & Ht & Hb) Hvalid]. simpl in *.
    rewrite (save_telegram_mapping_quiet env Hq db rows) by done. simpl.
    set (new := new_mapping_row (CURRENT_TIMESTAMP env) t b).
    assert (replace_mapping_row new rows ≡ₚ new :: rows) as Hperm.
    { unfold replace_mapping_row. rewrite rowid_insert_perm. f_equiv.
      rewrite filter_all; [done|]. apply Forall_forall.
      intros r Hr Hc%mapping_conflict_iff. simpl in Hc.
      apply NoDup_app in Hnd as (_ & Hfresh & _).
      apply (Hfresh t); [|left]. rewrite <-Hc. by apply list_elem_of_fmap_2. }
    destruct (IH (set_telegram_bitrix_mapping (replace_mapping_row new rows) db)
                (replace_mapping_row new rows)) as (rows' & Hrows' & Hpairs);
      [reflexivity|done| |].
    + rewrite Hperm. simpl. by rewrite Permutation_middle.
    + exists rows'. split; [done|].
      rewrite Hpairs. unfold pairs_of at 1. rewrite Hperm. simpl.
      by rewrite Permutation_middle.
Qed.

(** C6.  After saving N mappings with distinct Telegram IDs on a file whose
    mapping table is empty, with storable integers and no storage failure,
    [load_all_telegram_mappings] returns a dictionary of exactly N entries
    that maps each saved Telegram ID to the Bitrix24 user ID saved with it;
    on the empty table it returns the empty dictionary. *)
Theorem load_all_after_saves env db saves :
  no_faults env ->
  telegram_bitrix_mapping db = Some [] ->
  Forall valid_save saves ->
  NoDup ((snd <$> saves).*1) ->
  snd (load_all_telegram_mappings env db) = Ok ∅
  /\ exists mappings : gmap Z Z,
       snd (load_all_telegram_mappings env (save_all saves db)) = Ok mappings
       /\ size mappings = length saves
       /\ forall s, s ∈ saves -> mappings !! fst (snd s) = Some (snd (snd s)).
Proof.
  intros Hq Hempty Hvalid Hnd. split.
  - by rewrite (load_all_telegram_mappings_quiet env Hq db []).
  - destruct (save_all_pairs saves db [] Hempty Hvalid Hnd) as (rows' & Hrows' & Hpairs).
    simpl in Hpairs.
    rewrite (load_all_telegram_mappings_quiet env Hq _ rows') by done. simpl.
    assert (NoDup ((pairs_of rows').*1)) as Hnd' by by rewrite Hpairs.
    rewrite loop_result_list_to_map, (right_id_L ∅ (∪)) by done.
    eexists. split; [reflexivity|]. split.
    + rewrite map_size_list_to_map by done.
      by rewrite Hpairs, length_fmap.
    + intros [env' [t b]] Hs. simpl.
      apply elem_of_list_to_map; [done|]. rewrite Hpairs.
      apply (list_elem_of_fmap_2 snd) in Hs. done.
Qed.

Lemma load_all_after_saves_witness :
  snd (load_all_telegram_mappings (quiet 9) initialized) = Ok ∅
  /\ exists mappings : gmap Z Z,
       snd (load_all_telegram_mappings (quiet 9)
              (save_all [(quiet 1, (100, 55)); (quiet 2, (42, 7))] initialized))
       = Ok mappings
       /\ size mappings = 2%nat
       /\ forall s, s ∈ [(quiet 1, (100, 55)); (quiet 2, (42, 7))] ->
                    mappings !! fst (snd s) = Some (snd (snd s)).
Proof.
  apply (load_all_after_saves (quiet 9) initialized
           [(quiet 1, (100, 55)); (quiet 2, (42, 7))]);
    [apply quiet_no_faults | reflexivity | |].
  - repeat constructor; apply quiet_no_faults.
  - simpl. repeat constructor; rewrite ?elem_of_cons, ?elem_of_nil; intuition lia.
Defined.

(** ** C7: nothing escapes the accessors *)

(** C7.  Whatever the arguments and the file, and whichever storage calls
    fail, as long as the storage raises [Exception]s: every accessor returns
    a value; the three writers return [False] when connecting, executing,
    committing or closing failed; the three lookups return [None] when
    connecting, executing or closing failed; the bulk load and its alias
    return a dictionary, the empty one when connecting or executing
    failed. *)
Theorem failures_are_contained env db :
  storage_faults env ->
  (forall t b,
     contained false [Connect; Execute 0; Commit; Close] env
       (save_telegram_mapping env t b db))
  /\ (forall u b,
        contained false [Connect; Execute 0; Commit; Close] env
          (save_username_mapping env u b db))
  /\ (forall t,
        contained false [Connect; Execute 0; Commit; Close] env
          (delete_telegram_mapping env t db))
  /\ (forall t,
        contained None [Connect; Execute 0; Close] env (get_bitrix_user_id env t db))
  /\ (forall b,
        contained None [Connect; Execute 0; Close] env (get_telegram_id env b db))
  /\ (forall u,
        contained None [Connect; Execute 0; Close] env
          (get_bitrix_user_id_by_username env u db))
  /\ contained (∅ : gmap Z Z) [Connect; Execute 0] env
       (load_all_telegram_mappings env db)
  /\ contained (∅ : gmap Z Z) [Connect; Execute 0] env (get_all_mappings env db).
Proof.
  intros Hsf. split_and!; intros.
  - by apply save_telegram_mapping_contained.
  - by apply save_username_mapping_contained.
  - by apply delete_telegram_mapping_contained.
  - by apply get_bitrix_user_id_contained.
  - by apply get_telegram_id_contained.
  - by apply get_bitrix_user_id_by_username_contained.
  - by apply load_all_telegram_mappings_contained.
  - by apply load_all_telegram_mappings_contained.
Qed.

Lemma failures_are_contained_witness :
  storage_faults disk_error
  /\ contained false [Connect; Execute 0; Commit; Close] disk_error
       (save_telegram_mapping disk_error 42 7 initialized)
  /\ contained None [Connect; Execute 0; Close] disk_error
       (get_bitrix_user_id disk_error 42 initialized).
Proof.
  assert (storage_faults disk_error) as Hsf.
  { intros s e. destruct s as [|[|n]| | |]; simpl; intros He; simplify_eq; reflexivity. }
  split; [exact Hsf|].
  destruct (failures_are_contained disk_error initialized Hsf)
    as (Hsave & _ & _ & Hget & _).
  split; [apply Hsave | apply Hget].
Defined.

(** ** C8: what a second save does to the row *)

(** A save over an existing row stamps both timestamps with the time of the
    save, whatever the row held. *)
Lemma save_telegram_mapping_stamps env db t b :
  snd (save_telegram_mapping env t b db) = Ok true ->
  exists rows',
    telegram_bitrix_mapping (fst (save_telegram_mapping env t b db)) = Some rows'
    /\ filter (fun r => row_telegram_id r = t) rows'
       = [ {| row_telegram_id := t; row_bitrix_user_id := b;
              row_created_at := CURRENT_TIMESTAMP env;
              row_updated_at := CURRENT_TIMESTAMP env |} ].
Proof.
  intros (rows & Hrows & Ht & Hb & ->)%save_telegram_mapping_true.
  eexists. split; [reflexivity|]. apply filter_telegram_id_replace.
Qed.

(** C8.  The code at the failing input: the row for 42 is created at time
    100 and saved again at time 200; the row then reads [created_at = 200],
    not 100. *)
Theorem replace_resets_created_at :
  telegram_bitrix_mapping (fst (save_telegram_mapping (quiet 100) 42 7 initialized))
  = Some [ {| row_telegram_id := 42; row_bitrix_user_id := 7;
              row_created_at := 100; row_updated_at := 100 |} ]
  /\ telegram_bitrix_mapping
       (fst (save_telegram_mapping (quiet 200) 42 9
               (fst (save_telegram_mapping (quiet 100) 42 7 initialized))))
     = Some [ {| row_telegram_id := 42; row_bitrix_user_id := 9;
                 row_created_at := 200; row_updated_at := 200 |} ].
Proof. split; reflexivity. Qed.

(** ** C9: the reverse lookup picks one row by a fixed rule *)

Lemma get_telegram_id_overflow env db b :
  no_faults env -> int64 b = false -> get_telegram_id env b db = (db, Ok None).
Proof.
  intros Hq Hb. unfold get_telegram_id, SELECT_telegram_id_WHERE_bitrix_user_id.
  py_unfold. rewrite ?Hq, ?Hb.
  destruct (telegram_bitrix_mapping db); simpl; by rewrite ?Hq.
Qed.

(** C9.  On a reachable file, with no storage failure, two calls of
    [get_telegram_id] with the same [bitrix_user_id], one after the other,
    return the same answer; when rows carry that [bitrix_user_id] the answer
    is the Telegram ID of the first of them in storage order, which is the
    least one. *)
Theorem get_telegram_id_deterministic env1 env2 db rows b :
  reachable db ->
  no_faults env1 -> no_faults env2 ->
  telegram_bitrix_mapping db = Some rows ->
  exists answer,
    snd (get_telegram_id env1 b db) = Ok answer
    /\ snd (get_telegram_id env2 b (fst (get_telegram_id env1 b db))) = Ok answer
    /\ answer = row_telegram_id
                  <$> head (filter (fun r => row_bitrix_user_id r = b) rows)
    /\ match answer with
       | Some t =>
         (exists r, r ∈ rows /\ row_telegram_id r = t /\ row_bitrix_user_id r = b)
         /\ forall r, r ∈ rows -> row_bitrix_user_id r = b -> t <= row_telegram_id r
       | None => forall r, r ∈ rows -> row_bitrix_user_id r <> b
       end.
Proof.
  intros Hreach Hq1 Hq2 Hrows.
  destruct (reachable_database_ok db Hreach) as [Hm _].
  destruct (Hm rows Hrows) as [Hsorted Hrange].
  rewrite get_telegram_id_frame.
  destruct (int64 b) eqn:Hb.
  - rewrite (get_telegram_id_quiet env1 Hq1 db rows),
      (get_telegram_id_quiet env2 Hq2 db rows) by done. simpl.
    set (matches := filter (fun r => row_bitrix_user_id r = b) rows).
    eexists. split_and!; [reflexivity|reflexivity|by destruct matches|].
    destruct matches as [|r0 rest] eqn:Hmatches; simpl.
    + intros r Hr Heq. eapply (filter_nil_not_elem_of _ rows r); eauto.
    + assert (r0 ∈ filter (fun r => row_bitrix_user_id r = b) rows) as Hr0.
      { fold matches. rewrite Hmatches. left. }
      apply list_elem_of_filter in Hr0 as [Hb0 Hr0]. split; [eauto|].
      intros r Hr Heq.
      eapply (head_filter_least (fun r => row_bitrix_user_id r = b) rows r0); eauto.
      fold matches. by rewrite Hmatches.
  - rewrite !get_telegram_id_overflow by done. simpl.
    assert (filter (fun r => row_bitrix_user_id r = b) rows = []) as Hnone.
    { apply filter_none, Forall_forall. intros r Hr Heq.
      rewrite Forall_forall in Hrange. destruct (Hrange r Hr). congruence. }
    exists None. rewrite Hnone. split_and!; try done.
    intros r Hr Heq. eapply (filter_nil_not_elem_of _ rows r); eauto.
Qed.

Lemma reachable_shared : reachable shared.
Proof.
  exists [(quiet 0, call_init_database);
          (quiet 1, call_save_telegram_mapping 100 7);
          (quiet 2, call_save_telegram_mapping 42 7)].
  reflexivity.
Defined.

Lemma get_telegram_id_deterministic_witness :
  exists answer,
    snd (get_telegram_id (quiet 3) 7 shared) = Ok answer
    /\ snd (get_telegram_id (quiet 4) 7 (fst (get_telegram_id (quiet 3) 7 shared)))
       = Ok answer
    /\ answer = Some 42.
Proof.
  destruct (get_telegram_id_deterministic (quiet 3) (quiet 4) shared
              [new_mapping_row 2 42 7; new_mapping_row 1 100 7] 7)
    as (answer & H1 & H2 & H3 & _);
    [apply reachable_shared | apply quiet_no_faults | apply quiet_no_faults
    | reflexivity |].
  exists answer. split_and!; [exact H1 | exact H2 | exact H3].
Defined.

(** ** C10: the alias *)

(** C10.  For every environment and file, [get_all_mappings] returns what
    [load_all_telegram_mappings] returns and leaves the file as it does. *)
Theorem get_all_mappings_is_load_all env db :
  get_all_mappings env db = load_all_telegram_mappings env db.
Proof. reflexivity. Qed.

(** ** The end-to-end scenario *)

(** From an empty store: save [(100, 55)], save the handle ["@bob"], look
    both up, load everything, delete, look up again. *)
Example end_to_end :
  let db1 := fst (save_telegram_mapping (quiet 1) 100 55 initialized) in
  let db2 := fst (save_username_mapping (quiet 2) "@bob" 55 db1) in
  let db3 := fst (delete_telegram_mapping (quiet 6) 100 db2) in
  snd (get_bitrix_user_id (quiet 3) 100 db2) = Ok (Some 55)
  /\ snd (get_bitrix_user_id_by_username (quiet 4) "bob" db2) = Ok (Some 55)
  /\ snd (load_all_telegram_mappings (quiet 5) db2) = Ok {[ 100 := 55 ]}
  /\ snd (delete_telegram_mapping (quiet 6) 100 db2) = Ok true
  /\ snd (get_bitrix_user_id (quiet 7) 100 db3) = Ok None.
Proof. repeat split; vm_compute; reflexivity. Qed.

(** * Further properties *)

(** ** [init_database] *)

Lemma init_database_quiet_eq env db :
  no_faults env ->
  init_database env db =
    ({| telegram_bitrix_mapping := Some (default [] (telegram_bitrix_mapping db));
        username_bitrix_mapping := Some (default [] (username_bitrix_mapping db));
        idx_bitrix_user_id := true |},
     Ok tt).
Proof.
  intros Hq.
  unfold init_database, CREATE_TABLE_telegram_bitrix_mapping,
    CREATE_TABLE_username_bitrix_mapping, CREATE_INDEX_idx_bitrix_user_id.
  py_unfold. rewrite ?Hq.
  destruct db as [[rows|] [urows|] idx]; simpl; by rewrite ?Hq.
Qed.

(** X1.  With no storage failure [init_database] returns normally; afterwards
    both tables and the index exist, a table that existed keeps its rows and
    a new one is empty; calling it again changes nothing. *)
Theorem init_database_creates_and_keeps env env' db :
  no_faults env -> no_faults env' ->
  snd (init_database env db) = Ok tt
  /\ telegram_bitrix_mapping (fst (init_database env db))
     = Some (default [] (telegram_bitrix_mapping db))
  /\ username_bitrix_mapping (fst (init_database env db))
     = Some (default [] (username_bitrix_mapping db))
  /\ idx_bitrix_user_id (fst (init_database env db)) = true
  /\ init_database env' (fst (init_database env db))
     = (fst (init_database env db), Ok tt).
Proof.
  intros Hq Hq'. rewrite (init_database_quiet_eq env db Hq). simpl.
  split_and!; try done.
  by rewrite (init_database_quiet_eq env' _ Hq').
Qed.

Lemma init_database_creates_and_keeps_witness :
  snd (init_database (quiet 1) shared) = Ok tt
  /\ telegram_bitrix_mapping (fst (init_database (quiet 1) shared))
     = Some [new_mapping_row 2 42 7; new_mapping_row 1 100 7]
  /\ username_bitrix_mapping (fst (init_database (quiet 1) empty_file)) = Some [].
Proof.
  destruct (init_database_creates_and_keeps (quiet 1) (quiet 2) shared
              (quiet_no_faults 1) (quiet_no_faults 2)) as (H1 & H2 & _).
  destruct (init_database_creates_and_keeps (quiet 1) (quiet 2) empty_file
              (quiet_no_faults 1) (quiet_no_faults 2)) as (_ & _ & H3 & _).
  split_and!; [exact H1 | exact H2 | exact H3].
Defined.

Lemma leave_reraises {A} env c (r : result A) e :
  r = Raise e -> exists e', snd (leave env c r) = Raise e'.
Proof. intros ->. leave_cases env c; eauto. Qed.

(** X2.  [init_database] hands every failure on to its caller: when
    connecting, one of the three statements, or closing fails, the call ends
    in an exception. *)
Theorem init_database_raises env db :
  fails_at env [Connect; Execute 0; Execute 1; Execute 2; Close] ->
  exists e, snd (init_database env db) = Raise e.
Proof.
  unfold_calls. unfold with_frame, try_except. rewrite get_db_connection_leave.
  destruct (fault env Connect) as [e|] eqn:?; simpl.
  { intros _. unfold raise. destruct (is_Exception e); eauto. }
  unfold bind, lift, cursor_execute_ddl, fresh. unfold_statements. simpl.
  destruct db as [rows urows idx]; simpl.
  destruct (fault env (Execute 0)) as [?e|] eqn:?; simpl;
    [|destruct rows as [rows|]; simpl;
      (destruct (fault env (Execute 1)) as [?e|] eqn:?; simpl;
       [|destruct urows as [urows|]; simpl;
         (destruct (fault env (Execute 2)) as [?e|] eqn:?; simpl)])].
  all: use_leave; unfold raise; guard_cases;
    try (intros _; eexists; reflexivity);
    failed_step; first [done | congruence | left_normally].
Qed.

Lemma init_database_raises_witness :
  exists e, snd (init_database disk_error empty_file) = Raise e.
Proof.
  apply init_database_raises. exists (Execute 0). split; [|done].
  apply elem_of_cons. right. apply elem_of_cons. by left.
Defined.

(** X3.  Whatever fails, [init_database] leaves an existing table as it is,
    and a table it creates is empty. *)
Theorem init_database_keeps_rows env db :
  (forall rows,
     telegram_bitrix_mapping db = Some rows ->
     telegram_bitrix_mapping (fst (init_database env db)) = Some rows)
  /\ (forall urows,
        username_bitrix_mapping db = Some urows ->
        username_bitrix_mapping (fst (init_database env db)) = Some urows)
  /\ (telegram_bitrix_mapping db = None ->
      telegram_bitrix_mapping (fst (init_database env db)) = None
      \/ telegram_bitrix_mapping (fst (init_database env db)) = Some [])
  /\ (username_bitrix_mapping db = None ->
      username_bitrix_mapping (fst (init_database env db)) = None
      \/ username_bitrix_mapping (fst (init_database env db)) = Some []).
Proof.
  destruct (init_database_tables env db) as [[Ht|[Ht Ht']] [Hu|[Hu Hu']]];
    split_and!; intros; simplify_eq; try congruence; auto;
    first [left; congruence | right; congruence].
Qed.

(** ** What the lookups never do *)

(** X4.  Whatever fails, the three lookups, the bulk load and its alias
    leave the file exactly as it was. *)
Theorem lookups_never_write env db :
  (forall t, fst (get_bitrix_user_id env t db) = db)
  /\ (forall b, fst (get_telegram_id env b db) = db)
  /\ (forall u, fst (get_bitrix_user_id_by_username env u db) = db)
  /\ fst (load_all_telegram_mappings env db) = db
  /\ fst (get_all_mappings env db) = db.
Proof.
  split_and!; intros.
  - apply get_bitrix_user_id_frame.
  - apply get_telegram_id_frame.
  - apply get_bitrix_user_id_by_username_frame.
  - apply load_all_telegram_mappings_frame.
  - apply load_all_telegram_mappings_frame.
Qed.

(** ** Missing tables, integers too large, missing keys *)

(** X5.  On a file whose tables were never created, with no storage failure,
    every accessor reports failure instead of raising: the writers return
    [False], the lookups [None], the bulk load the empty dictionary; the
    file stays as it was. *)
Theorem accessors_before_init env db :
  no_faults env ->
  telegram_bitrix_mapping db = None ->
  username_bitrix_mapping db = None ->
  (forall t b, save_telegram_mapping env t b db = (db, Ok false))
  /\ (forall t, get_bitrix_user_id env t db = (db, Ok None))
  /\ (forall b, get_telegram_id env b db = (db, Ok None))
  /\ load_all_telegram_mappings env db = (db, Ok ∅)
  /\ (forall u b, save_username_mapping env u b db = (db, Ok false))
  /\ (forall u, get_bitrix_user_id_by_username env u db = (db, Ok None))
  /\ (forall t, delete_telegram_mapping env t db = (db, Ok false)).
Proof.
  intros Hq Hm Hu. split_and!; intros; unfold_calls; unfold_statements;
    try hide_loop; py_unfold; rewrite ?Hq, ?Hm, ?Hu; simpl; by rewrite ?Hq.
Qed.

Lemma accessors_before_init_witness :
  save_telegram_mapping (quiet 1) 42 7 empty_file = (empty_file, Ok false)
  /\ get_bitrix_user_id (quiet 1) 42 empty_file = (empty_file, Ok None)
  /\ load_all_telegram_mappings (quiet 1) empty_file = (empty_file, Ok ∅).
Proof.
  destruct (accessors_before_init (quiet 1) empty_file (quiet_no_faults 1)
              eq_refl eq_refl) as (Hsave & Hget & _ & Hload & _).
  split_and!; [apply Hsave | apply Hget | exact Hload].
Defined.

Lemma get_bitrix_user_id_overflow env db t :
  no_faults env -> int64 t = false -> get_bitrix_user_id env t db = (db, Ok None).
Proof.
  intros Hq Ht. unfold get_bitrix_user_id, SELECT_bitrix_user_id_WHERE_telegram_id.
  py_unfold. rewrite ?Hq, ?Ht.
  destruct (telegram_bitrix_mapping db); simpl; by rewrite ?Hq.
Qed.

(** X6.  An integer that does not fit SQLite's 64-bit INTEGER is refused
    without raising and without touching the file: the saves return [False]
    when either argument is too large, the delete returns [False] and the
    lookups return [None]. *)
Theorem integers_too_large env db :
  no_faults env ->
  (forall t b, int64 t = false \/ int64 b = false ->
               save_telegram_mapping env t b db = (db, Ok false))
  /\ (forall u b, int64 b = false ->
                  save_username_mapping env u b db = (db, Ok false))
  /\ (forall t, int64 t = false ->
                delete_telegram_mapping env t db = (db, Ok false))
  /\ (forall t, int64 t = false -> get_bitrix_user_id env t db = (db, Ok None))
  /\ (forall b, int64 b = false -> get_telegram_id env b db = (db, Ok None)).
Proof.
  intros Hq. split_and!.
  - intros t b Hlarge.
    assert (int64 t && int64 b = false) as Hboth.
    { destruct Hlarge as [->| ->]; [done|]. by destruct (int64 t). }
    unfold_calls; unfold_statements; py_unfold. rewrite ?Hq, ?Hboth.
    destruct (telegram_bitrix_mapping db); simpl; by rewrite ?Hq.
  - intros u b Hb. unfold_calls; unfold_statements; py_unfold. rewrite ?Hq, ?Hb.
    destruct (username_bitrix_mapping db); simpl; by rewrite ?Hq.
  - intros t Ht. by apply delete_telegram_mapping_overflow.
  - intros t Ht. by apply get_bitrix_user_id_overflow.
  - intros b Hb. by apply get_telegram_id_overflow.
Qed.

Lemma integers_too_large_witness :
  save_telegram_mapping (quiet 1) (2 ^ 63) 7 initialized = (initialized, Ok false)
  /\ get_bitrix_user_id (quiet 1) (- 2 ^ 63 - 1) initialized = (initialized, Ok None).
Proof.
  destruct (integers_too_large (quiet 1) initialized (quiet_no_faults 1))
    as (Hsave & _ & _ & Hget & _).
  split; [apply Hsave; by left | by apply Hget].
Defined.

(** X7.  A key that no row carries is reported as absent: with no storage
    failure each lookup returns [None] when the table holds no row for its
    argument, whatever the argument is. *)
Theorem absent_keys env db :
  no_faults env ->
  (forall rows t,
     telegram_bitrix_mapping db = Some rows ->
     (forall r, r ∈ rows -> row_telegram_id r <> t) ->
     get_bitrix_user_id env t db = (db, Ok None))
  /\ (forall rows b,
        telegram_bitrix_mapping db = Some rows ->
        (forall r, r ∈ rows -> row_bitrix_user_id r <> b) ->
        get_telegram_id env b db = (db, Ok None))
  /\ (forall urows u,
        username_bitrix_mapping db = Some urows ->
        (forall r, r ∈ urows -> urow_telegram_username r <> lstrip u "@") ->
        get_bitrix_user_id_by_username env u db = (db, Ok None)).
Proof.
  intros Hq. split_and!.
  - intros rows t Hrows Hnone. destruct (int64 t) eqn:Ht.
    + rewrite (get_bitrix_user_id_quiet env Hq db rows) by done.
      rewrite filter_none; [done|]. by apply Forall_forall.
    + by apply get_bitrix_user_id_overflow.
  - intros rows b Hrows Hnone. destruct (int64 b) eqn:Hb.
    + rewrite (get_telegram_id_quiet env Hq db rows) by done.
      rewrite filter_none; [done|]. by apply Forall_forall.
    + by apply get_telegram_id_overflow.
  - intros urows u Hrows Hnone.
    rewrite (get_bitrix_user_id_by_username_quiet env Hq db urows) by done.
    rewrite filter_none; [done|]. by apply Forall_forall.
Qed.

Lemma absent_keys_witness :
  get_bitrix_user_id (quiet 3) 43 shared = (shared, Ok None)
  /\ get_bitrix_user_id_by_username (quiet 3) "@carol" shared = (shared, Ok None).
Proof.
  destruct (absent_keys (quiet 3) shared (quiet_no_faults 3)) as (Hid & _ & Hname).
  split.
  - apply (Hid [new_mapping_row 2 42 7; new_mapping_row 1 100 7]); [reflexivity|].
    intros r Hr. repeat (apply elem_of_cons in Hr as [->|Hr]); simpl; try lia.
    by apply not_elem_of_nil in Hr.
  - apply (Hname []); [reflexivity|]. intros r Hr. by apply not_elem_of_nil in Hr.
Defined.

(** ** What a save leaves alone *)

(** X8.  A save touches one Telegram ID only: with no storage failure the
    rows of every other Telegram ID are the rows that were there, and the
    lookup of another ID answers as before. *)
Theorem save_leaves_other_rows env1 env2 db rows t b :
  no_faults env1 -> no_faults env2 ->
  telegram_bitrix_mapping db = Some rows ->
  int64 t = true -> int64 b = true ->
  (exists rows',
     telegram_bitrix_mapping (fst (save_telegram_mapping env1 t b db)) = Some rows'
     /\ filter (fun r => row_telegram_id r <> t) rows'
        = filter (fun r => row_telegram_id r <> t) rows)
  /\ (forall t', t' <> t ->
        snd (get_bitrix_user_id env2 t' (fst (save_telegram_mapping env1 t b db)))
        = snd (get_bitrix_user_id env2 t' db)).
Proof.
  intros Hq1 Hq2 Hrows Ht Hb. split.
  - rewrite (save_telegram_mapping_quiet env1 Hq1 db rows) by done. simpl.
    eexists. split; [reflexivity|]. unfold replace_mapping_row.
    rewrite filter_rowid_insert_skip by (simpl; tauto).
    rewrite list_filter_filter. apply list_filter_iff.
    intros r. rewrite mapping_conflict_iff. simpl. tauto.
  - intros t' Hne. by apply save_then_get_other.
Qed.

Lemma save_leaves_other_rows_witness :
  snd (get_bitrix_user_id (quiet 4) 100
         (fst (save_telegram_mapping (quiet 3) 42 9 shared)))
  = snd (get_bitrix_user_id (quiet 4) 100 shared).
Proof.
  destruct (save_leaves_other_rows (quiet 3) (quiet 4) shared
              [new_mapping_row 2 42 7; new_mapping_row 1 100 7] 42 9)
    as [_ Hother];
    [apply quiet_no_faults | apply quiet_no_faults
    | reflexivity | reflexivity | reflexivity |].
  apply Hother. lia.
Defined.

(** X9.  The two tables are independent: whatever fails, saving or deleting
    an ID mapping leaves the handle table as it was, and saving a handle
    mapping leaves the ID table as it was. *)
Theorem tables_are_independent env db :
  (forall t b,
     username_bitrix_mapping (fst (save_telegram_mapping env t b db))
     = username_bitrix_mapping db)
  /\ (forall t,
        username_bitrix_mapping (fst (delete_telegram_mapping env t db))
        = username_bitrix_mapping db)
  /\ (forall u b,
        telegram_bitrix_mapping (fst (save_username_mapping env u b db))
        = telegram_bitrix_mapping db).
Proof.
  split_and!.
  - intros t b.
    by destruct (save_telegram_mapping_file env t b db) as [->|(? & ? & ? & ? & ->)].
  - intros t.
    by destruct (delete_telegram_mapping_file env t db) as [->|(? & ? & ? & ->)].
  - intros u b.
    by destruct (save_username_mapping_file env u b db) as [->|(? & ? & ? & ->)].
Qed.

(** ** Handles *)

Lemma lstrip_sigils n s : lstrip (sigils n s) "@" = lstrip s "@".
Proof. induction n as [|n IH]; [done|]. simpl. exact IH. Qed.

Lemma lstrip_no_sigil s rest : lstrip s "@" <> String "@"%char rest.
Proof.
  induction s as [|c s IH]; simpl; [done|].
  destruct (Ascii.eqb c "@") eqn:Hc; simpl; [done|].
  intros [= -> _]. by rewrite Ascii.eqb_refl in Hc.
Qed.

(** X10.  Every leading sigil is stripped, not just one: a handle saved with
    any number of leading ["@"] is found under the same handle with any
    other number of them. *)
Theorem any_number_of_sigils env1 env2 db n m s b :
  no_faults env1 -> no_faults env2 ->
  is_Some (username_bitrix_mapping db) ->
  int64 b = true ->
  snd (get_bitrix_user_id_by_username env2 (sigils m s)
         (fst (save_username_mapping env1 (sigils n s) b db)))
  = Ok (Some b).
Proof.
  intros Hq1 Hq2 Hsome Hb. apply save_username_then_get; try done.
  by rewrite !lstrip_sigils.
Qed.

Lemma any_number_of_sigils_witness :
  snd (get_bitrix_user_id_by_username (quiet 2) "bob"
         (fst (save_username_mapping (quiet 1) "@@@bob" 55 initialized)))
  = Ok (Some 55).
Proof.
  apply (any_number_of_sigils (quiet 1) (quiet 2) initialized 3 0 "bob" 55);
    [apply quiet_no_faults | apply quiet_no_faults | by eexists | reflexivity].
Defined.

Lemma exec_usernames_stripped env c db :
  usernames_stripped db -> usernames_stripped (exec env c db).
Proof.
  intros Hs. destruct c as [|t b|t|b| |u b|u|t|]; simpl.
  - destruct (init_database_tables env db) as [_ [Hu|[Hu Hu']]];
      intros urows Hrows; [apply Hs; congruence|].
    rewrite Hu' in Hrows. simplify_eq. constructor.
  - by destruct (save_telegram_mapping_file env t b db) as [->|(? & ? & ? & ? & ->)].
  - by rewrite get_bitrix_user_id_frame.
  - by rewrite get_telegram_id_frame.
  - by rewrite load_all_telegram_mappings_frame.
  - destruct (save_username_mapping_file env u b db) as [->|(urows & Hr & Hb & ->)];
      [done|].
    intros ? [= <-]. unfold replace_username_row.
    apply Forall_app. split.
    + specialize (Hs urows Hr). rewrite Forall_forall in *.
      intros r [_ Hin]%list_elem_of_filter. auto.
    + constructor; [|constructor]. simpl. apply lstrip_no_sigil.
  - by rewrite get_bitrix_user_id_by_username_frame.
  - by destruct (delete_telegram_mapping_file env t db) as [->|(? & ? & ? & ->)].
  - unfold get_all_mappings. by rewrite load_all_telegram_mappings_frame.
Qed.

(** X11.  In every state the module's calls can reach, the handle table
    holds at most one row per handle and no stored handle starts with the
    sigil. *)
Theorem stored_handles db urows :
  reachable db ->
  username_bitrix_mapping db = Some urows ->
  NoDup (urow_telegram_username <$> urows)
  /\ forall r rest, r ∈ urows -> urow_telegram_username r <> String "@"%char rest.
Proof.
  intros Hreach Hrows. split.
  - by apply (reachable_database_ok db Hreach).
  - assert (usernames_stripped db) as Hs.
    { destruct Hreach as [history <-]. clear Hrows.
      assert (usernames_stripped empty_file) as H0 by (intros ? [=]).
      revert H0. generalize empty_file.
      induction history as [|[env c] rest IH]; intros db0 H0; [done|].
      simpl. by apply IH, exec_usernames_stripped. }
    intros r rest Hr. specialize (Hs urows Hrows).
    rewrite Forall_forall in Hs. by apply Hs.
Qed.

Lemma stored_handles_witness :
  NoDup (urow_telegram_username <$> [new_username_row 1 "alice" 7])
  /\ forall r rest,
       r ∈ [new_username_row 1 "alice" 7] ->
       urow_telegram_username r <> String "@"%char rest.
Proof.
  apply (stored_handles (fst (save_username_mapping (quiet 1) "@alice" 7 initialized))).
  - exists [(quiet 0, call_init_database);
            (quiet 1, call_save_username_mapping "@alice" 7)].
    reflexivity.
  - reflexivity.
Defined.

(** X12.  The last save of a handle wins: after two saves of handles that
    agree once stripped, one row holds the handle and the lookup returns the
    second [bitrix_user_id]. *)
Theorem save_username_mapping_replaces env1 env2 env3 db u u' b1 b2 :
  no_faults env1 -> no_faults env2 -> no_faults env3 ->
  is_Some (username_bitrix_mapping db) ->
  int64 b1 = true -> int64 b2 = true ->
  lstrip u' "@" = lstrip u "@" ->
  (exists urows',
     username_bitrix_mapping
       (fst (save_username_mapping env2 u' b2
               (fst (save_username_mapping env1 u b1 db)))) = Some urows'
     /\ length (filter (fun r => urow_telegram_username r = lstrip u "@") urows')
        = 1%nat)
  /\ snd (get_bitrix_user_id_by_username env3 u
            (fst (save_username_mapping env2 u' b2
                    (fst (save_username_mapping env1 u b1 db)))))
     = Ok (Some b2).
Proof.
  intros Hq1 Hq2 Hq3 [urows Hrows] Hb1 Hb2 Hstrip.
  rewrite (save_username_mapping_quiet env1 Hq1 db urows) by done. simpl.
  erewrite (save_username_mapping_quiet env2 Hq2) by done. simpl.
  rewrite Hstrip. split.
  - eexists. split; [reflexivity|]. by rewrite filter_username_replace.
  - erewrite (get_bitrix_user_id_by_username_quiet env3 Hq3) by done.
    by rewrite filter_username_replace.
Qed.

Lemma save_username_mapping_replaces_witness :
  snd (get_bitrix_user_id_by_username (quiet 3) "alice"
         (fst (save_username_mapping (quiet 2) "@alice" 9
                 (fst (save_username_mapping (quiet 1) "alice" 7 initialized)))))
  = Ok (Some 9).
Proof.
  destruct (save_username_mapping_replaces (quiet 1) (quiet 2) (quiet 3)
              initialized "alice" "@alice" 7 9) as [_ Hget];
    [apply quiet_no_faults | apply quiet_no_faults | apply quiet_no_faults
    | by eexists | reflexivity | reflexivity | reflexivity | exact Hget].
Defined.

(** ** How the writers compose *)

Lemma replace_mapping_row_twice new1 new2 rows :
  row_telegram_id new1 = row_telegram_id new2 ->
  replace_mapping_row new2 (replace_mapping_row new1 rows)
  = replace_mapping_row new2 rows.
Proof.
  intros Hsame. unfold replace_mapping_row. f_equal.
  rewrite filter_rowid_insert_skip
    by (rewrite mapping_conflict_iff; intros Hn; by apply Hn).
  rewrite list_filter_filter. apply list_filter_iff.
  intros r. rewrite !mapping_conflict_iff, Hsame. tauto.
Qed.

(** X13.  The last save of a Telegram ID wins and forgets the one before:
    with no storage failure, two saves of the same ID leave the file that
    the second save alone would have left. *)
Theorem second_save_overrides env1 env2 db t b1 b2 :
  no_faults env1 -> no_faults env2 ->
  is_Some (telegram_bitrix_mapping db) ->
  int64 t = true -> int64 b1 = true -> int64 b2 = true ->
  fst (save_telegram_mapping env2 t b2 (fst (save_telegram_mapping env1 t b1 db)))
  = fst (save_telegram_mapping env2 t b2 db).
Proof.
  intros Hq1 Hq2 [rows Hrows] Ht Hb1 Hb2.
  rewrite (save_telegram_mapping_quiet env1 Hq1 db rows) by done. simpl.
  erewrite (save_telegram_mapping_quiet env2 Hq2) by done.
  rewrite (save_telegram_mapping_quiet env2 Hq2 db rows) by done. simpl.
  by rewrite replace_mapping_row_twice.
Qed.

Lemma second_save_overrides_witness :
  fst (save_telegram_mapping (quiet 2) 42 9
         (fst (save_telegram_mapping (quiet 1) 42 7 initialized)))
  = fst (save_telegram_mapping (quiet 2) 42 9 initialized).
Proof.
  apply second_save_overrides;
    [apply quiet_no_faults | apply quiet_no_faults | by eexists
    | reflexivity | reflexivity | reflexivity].
Defined.

(** X14.  Delete undoes save: with no storage failure, deleting an ID right
    after saving it returns [True] and leaves the file that deleting alone
    would have left; when no row carried the ID before the save, that is the
    file as it was before the save. *)
Theorem save_then_delete env1 env2 db rows t b :
  no_faults env1 -> no_faults env2 ->
  telegram_bitrix_mapping db = Some rows ->
  int64 t = true -> int64 b = true ->
  snd (delete_telegram_mapping env2 t (fst (save_telegram_mapping env1 t b db)))
  = Ok true
  /\ fst (delete_telegram_mapping env2 t (fst (save_telegram_mapping env1 t b db)))
     = fst (delete_telegram_mapping env2 t db)
  /\ ((forall r, r ∈ rows -> row_telegram_id r <> t) ->
      fst (delete_telegram_mapping env2 t (fst (save_telegram_mapping env1 t b db)))
      = db).
Proof.
  intros Hq1 Hq2 Hrows Ht Hb.
  rewrite (save_telegram_mapping_quiet env1 Hq1 db rows) by done. simpl.
  erewrite (delete_telegram_mapping_quiet env2 Hq2) by done.
  rewrite (delete_telegram_mapping_quiet env2 Hq2 db rows) by done. simpl.
  set (new := new_mapping_row (CURRENT_TIMESTAMP env1) t b).
  assert (filter (fun r => row_telegram_id r <> t) (replace_mapping_row new rows)
          = filter (fun r => row_telegram_id r <> t) rows) as Hrest.
  { unfold replace_mapping_row.
    rewrite filter_rowid_insert_skip by (simpl; tauto).
    rewrite list_filter_filter. apply list_filter_iff.
    intros r. rewrite mapping_conflict_iff. simpl. tauto. }
  rewrite Hrest. split_and!.
  - unfold new. by rewrite filter_telegram_id_replace.
  - done.
  - intros Hfresh. rewrite filter_all by by apply Forall_forall.
    by destruct db; simpl in *; subst.
Qed.

Lemma save_then_delete_witness :
  delete_telegram_mapping (quiet 2) 42
    (fst (save_telegram_mapping (quiet 1) 42 7 initialized))
  = (initialized, Ok true).
Proof.
  destruct (save_then_delete (quiet 1) (quiet 2) initialized [] 42 7)
    as (Htrue & _ & Hback);
    [apply quiet_no_faults | apply quiet_no_faults
    | reflexivity | reflexivity | reflexivity |].
  apply injective_projections; simpl.
  - apply Hback. intros r Hr. by apply not_elem_of_nil in Hr.
  - exact Htrue.
Defined.

(** X15.  A second delete of the same ID finds nothing: with no storage
    failure it returns [False] and leaves the file as the first delete left
    it. *)
Theorem delete_twice env1 env2 db t :
  no_faults env1 -> no_faults env2 ->
  is_Some (telegram_bitrix_mapping db) ->
  delete_telegram_mapping env2 t (fst (delete_telegram_mapping env1 t db))
  = (fst (delete_telegram_mapping env1 t db), Ok false).
Proof.
  intros Hq1 Hq2 [rows Hrows]. destruct (int64 t) eqn:Ht.
  - rewrite (delete_telegram_mapping_quiet env1 Hq1 db rows) by done. simpl.
    erewrite (delete_telegram_mapping_quiet env2 Hq2) by done.
    rewrite filter_telegram_id_deleted.
    rewrite filter_all; [done|].
    apply Forall_forall. by intros r [Hr _]%list_elem_of_filter.
  - by rewrite !delete_telegram_mapping_overflow.
Qed.

Lemma delete_twice_witness :
  delete_telegram_mapping (quiet 4) 42
    (fst (delete_telegram_mapping (quiet 3) 42 shared))
  = (fst (delete_telegram_mapping (quiet 3) 42 shared), Ok false).
Proof.
  apply delete_twice; [apply quiet_no_faults | apply quiet_no_faults | by eexists].
Defined.

Lemma filter_perm_rows (P : mapping_row -> Prop) `{!forall r, Decision (P r)}
    (l1 l2 : list mapping_row) :
  l1 ≡ₚ l2 -> filter P l1 ≡ₚ filter P l2.
Proof.
  induction 1 as [|x l1 l2 _ IH|x y l|l1 l2 l3 _ IH1 _ IH2]; [done| | |].
  - rewrite !filter_cons. destruct (decide (P x)); by rewrite IH.
  - rewrite !filter_cons.
    destruct (decide (P x)), (decide (P y)); try done. apply Permutation_swap.
  - by rewrite IH1.
Qed.

Lemma replace_mapping_row_perm new rows :
  replace_mapping_row new rows
  ≡ₚ new :: filter (fun r => row_telegram_id r <> row_telegram_id new) rows.
Proof.
  unfold replace_mapping_row. rewrite rowid_insert_perm. f_equiv.
  erewrite list_filter_iff; [done|]. intros r. by rewrite mapping_conflict_iff.
Qed.

(** X16.  Saves of different Telegram IDs commute: on a reachable file, with
    no storage failure, the two orders leave the same file. *)
Theorem saves_commute env1 env2 db t1 b1 t2 b2 :
  reachable db ->
  no_faults env1 -> no_faults env2 ->
  is_Some (telegram_bitrix_mapping db) ->
  int64 t1 = true -> int64 b1 = true -> int64 t2 = true -> int64 b2 = true ->
  t1 <> t2 ->
  fst (save_telegram_mapping env2 t2 b2 (fst (save_telegram_mapping env1 t1 b1 db)))
  = fst (save_telegram_mapping env1 t1 b1 (fst (save_telegram_mapping env2 t2 b2 db))).
Proof.
  intros Hreach Hq1 Hq2 [rows Hrows] Ht1 Hb1 Ht2 Hb2 Hne.
  destruct (reachable_database_ok db Hreach) as [Hm _].
  specialize (Hm rows Hrows).
  rewrite (save_telegram_mapping_quiet env1 Hq1 db rows) by done.
  rewrite (save_telegram_mapping_quiet env2 Hq2 db rows) by done. simpl.
  erewrite (save_telegram_mapping_quiet env2 Hq2) by done.
  erewrite (save_telegram_mapping_quiet env1 Hq1) by done. simpl.
  set (new1 := new_mapping_row (CURRENT_TIMESTAMP env1) t1 b1).
  set (new2 := new_mapping_row (CURRENT_TIMESTAMP env2) t2 b2).
  unfold set_telegram_bitrix_mapping. simpl. f_equal. f_equal.
  apply (StronglySorted_unique_strong rowid_lt).
  - intros r r' _ _ H1 H2. unfold rowid_lt in *. lia.
  - apply mapping_table_ok_replace; try done. by apply mapping_table_ok_replace.
  - apply mapping_table_ok_replace; try done. by apply mapping_table_ok_replace.
  - rewrite (replace_mapping_row_perm new2 (replace_mapping_row new1 rows)).
    rewrite (replace_mapping_row_perm new1 (replace_mapping_row new2 rows)).
    rewrite (filter_perm_rows _ _ _ (replace_mapping_row_perm new1 rows)).
    rewrite (filter_perm_rows _ _ _ (replace_mapping_row_perm new2 rows)).
    simpl. rewrite !filter_cons_True by (simpl; congruence).
    rewrite !list_filter_filter, Permutation_swap. do 2 f_equiv.
    erewrite list_filter_iff; [done|]. intros r. simpl. tauto.
Qed.

Lemma saves_commute_witness :
  fst (save_telegram_mapping (quiet 2) 42 7
         (fst (save_telegram_mapping (quiet 1) 100 7 initialized)))
  = fst (save_telegram_mapping (quiet 1) 100 7
           (fst (save_telegram_mapping (quiet 2) 42 7 initialized))).
Proof.
  apply saves_commute;
    [apply reachable_initialized | apply quiet_no_faults | apply quiet_no_faults
    | by eexists | reflexivity | reflexivity | reflexivity | reflexivity | lia].
Defined.

Lemma contained_missing_table env db :
  no_faults env ->
  telegram_bitrix_mapping db = None ->
  forall b,
    snd (get_telegram_id env b db) = Ok None
    /\ snd (get_bitrix_user_id env b db) = Ok None.
Proof.
  intros Hq Hm b. split; unfold_calls; unfold_statements; py_unfold;
    rewrite ?Hq, ?Hm; simpl; by rewrite ?Hq.
Qed.

(** ** The bulk load against the lookups *)

(** The first row of a scan by Telegram ID is what the dictionary of the
    pairs holds for it. *)
Lemma head_filter_list_to_map rows t :
  head (row_bitrix_user_id <$> filter (fun r => row_telegram_id r = t) rows)
  = (list_to_map (pairs_of rows) : gmap Z Z) !! t.
Proof.
  induction rows as [|r rest IH]; [done|].
  unfold pairs_of in *. rewrite fmap_cons, list_to_map_cons, filter_cons.
  destruct (decide (row_telegram_id r = t)) as [<-|Hne]; simpl.
  - by rewrite lookup_insert_eq.
  - by rewrite lookup_insert_ne.
Qed.

Lemma reachable_loaded env db rows :
  reachable db -> no_faults env ->
  telegram_bitrix_mapping db = Some rows ->
  NoDup ((pairs_of rows).*1)
  /\ snd (load_all_telegram_mappings env db) = Ok (list_to_map (pairs_of rows)).
Proof.
  intros Hreach Hq Hrows.
  destruct (reachable_database_ok db Hreach) as [Hm _].
  destruct (Hm rows Hrows) as [Hsorted _].
  assert (NoDup ((pairs_of rows).*1)) as Hnd.
  { unfold pairs_of. rewrite <-list_fmap_compose. by apply StronglySorted_NoDup. }
  split; [done|].
  rewrite (load_all_telegram_mappings_quiet env Hq db rows) by done. simpl.
  by rewrite loop_result_list_to_map, (right_id_L ∅ (∪)).
Qed.

(** X17.  The bulk load and the lookup agree: on a reachable file with the
    table created and no storage failure, [load_all_telegram_mappings]
    returns a dictionary with one entry per row, and for every Telegram ID
    [get_bitrix_user_id] returns what the dictionary holds for it. *)
Theorem load_all_agrees_with_lookup env1 env2 db rows :
  reachable db ->
  no_faults env1 -> no_faults env2 ->
  telegram_bitrix_mapping db = Some rows ->
  exists mappings : gmap Z Z,
    snd (load_all_telegram_mappings env1 db) = Ok mappings
    /\ size mappings = length rows
    /\ forall t, snd (get_bitrix_user_id env2 t db) = Ok (mappings !! t).
Proof.
  intros Hreach Hq1 Hq2 Hrows.
  destruct (reachable_loaded env1 db rows Hreach Hq1 Hrows) as [Hnd Hload].
  eexists. split; [exact Hload|]. split.
  - rewrite map_size_list_to_map by done. unfold pairs_of. by rewrite length_fmap.
  - intros t. destruct (int64 t) eqn:Ht.
    + rewrite (get_bitrix_user_id_quiet env2 Hq2 db rows) by done. simpl.
      by rewrite head_filter_list_to_map.
    + rewrite (get_bitrix_user_id_overflow env2 db t Hq2 Ht). simpl.
      rewrite <-head_filter_list_to_map, filter_none; [done|].
      apply Forall_forall. intros r Hr Heq.
      destruct (reachable_database_ok db Hreach) as [Hm _].
      destruct (Hm rows Hrows) as [_ Hrange].
      rewrite Forall_forall in Hrange. destruct (Hrange r Hr). congruence.
Qed.

Lemma load_all_agrees_with_lookup_witness :
  exists mappings : gmap Z Z,
    snd (load_all_telegram_mappings (quiet 3) shared) = Ok mappings
    /\ size mappings = 2%nat
    /\ forall t, snd (get_bitrix_user_id (quiet 4) t shared) = Ok (mappings !! t).
Proof.
  apply (load_all_agrees_with_lookup (quiet 3) (quiet 4) shared
           [new_mapping_row 2 42 7; new_mapping_row 1 100 7]);
    [apply reachable_shared | apply quiet_no_faults | apply quiet_no_faults
    | reflexivity].
Defined.

(** X18.  The reverse lookup never invents a pair: on a reachable file, with
    no storage failure, when [get_telegram_id] of a Bitrix24 user returns a
    Telegram ID, [get_bitrix_user_id] of that Telegram ID returns that
    user. *)
Theorem reverse_then_forward env1 env2 db t b :
  reachable db ->
  no_faults env1 -> no_faults env2 ->
  snd (get_telegram_id env1 b db) = Ok (Some t) ->
  snd (get_bitrix_user_id env2 t db) = Ok (Some b).
Proof.
  intros Hreach Hq1 Hq2 Hrev.
  destruct (telegram_bitrix_mapping db) as [rows|] eqn:Hrows.
  2:{ destruct (contained_missing_table env1 db Hq1 Hrows b) as [Hnone _].
      rewrite Hnone in Hrev. done. }
  destruct (int64 b) eqn:Hb.
  2:{ by rewrite (get_telegram_id_overflow env1 db b Hq1 Hb) in Hrev. }
  rewrite (get_telegram_id_quiet env1 Hq1 db rows) in Hrev by done. simpl in Hrev.
  destruct (filter (fun r => row_bitrix_user_id r = b) rows) as [|r rest] eqn:Hf;
    [done|].
  simpl in Hrev. simplify_eq.
  assert (r ∈ filter (fun r => row_bitrix_user_id r = b) rows) as Hr
    by (rewrite Hf; left).
  apply list_elem_of_filter in Hr as [Hbr Hr].
  destruct (reachable_database_ok db Hreach) as [Hm _].
  destruct (Hm rows Hrows) as [Hsorted Hrange].
  rewrite Forall_forall in Hrange. destruct (Hrange r Hr) as [Ht _].
  rewrite (get_bitrix_user_id_quiet env2 Hq2 db rows) by done. simpl.
  rewrite head_filter_list_to_map. do 2 f_equal.
  apply elem_of_list_to_map.
  - unfold pairs_of. rewrite <-list_fmap_compose. by apply StronglySorted_NoDup.
  - unfold pairs_of. rewrite <-Hbr.
    by apply (list_elem_of_fmap_2 (fun r => (row_telegram_id r, row_bitrix_user_id r))).
Qed.

Lemma reverse_then_forward_witness :
  snd (get_bitrix_user_id (quiet 4) 42 shared) = Ok (Some 7).
Proof.
  apply (reverse_then_forward (quiet 3) (quiet 4) shared 42 7);
    [apply reachable_shared | apply quiet_no_faults | apply quiet_no_faults
    | reflexivity].
Defined.

(** ** Failed writes *)

(** When closing does not fail, a block that ends in an exception has
    committed nothing. *)
Lemma leave_uncommitted {A} env c (r : result A) e :
  fault env Close = None ->
  snd (leave env c r) = Raise e ->
  durable (fst (leave env c r)) = durable c.
Proof.
  destruct r as [a|e0]; leave_cases env c; intros; simplify_eq; done.
Qed.

Ltac open_writer env db :=
  unfold_calls; cbv zeta; rewrite accessor_leave;
  destruct (fault env Connect) as [?e|] eqn:?; simpl;
  [|run_body env db;
    match goal with
    | |- context [leave ?env ?c0 ?r0] => pose proof (leave_uncommitted env c0 r0)
    end;
    use_leave].

Ltac nothing_committed :=
  guard_cases; intros;
  first
    [ done
    | match goal with
      | H : forall e, fault _ Close = None -> Raise ?x = Raise e -> _ |- _ =>
        by apply (H x)
      end
    | match goal with
      | H : forall a, Ok ?x = Ok a -> _ |- _ =>
        destruct (H x eq_refl) as (? & ? & ? & ?); simplify_eq; done
      end ].

Lemma save_telegram_mapping_failed env t b db :
  fault env Close = None ->
  snd (save_telegram_mapping env t b db) <> Ok true ->
  fst (save_telegram_mapping env t b db) = db.
Proof. intros Hclose. open_writer env db; nothing_committed. Qed.

Lemma save_username_mapping_failed env u b db :
  fault env Close = None ->
  snd (save_username_mapping env u b db) <> Ok true ->
  fst (save_username_mapping env u b db) = db.
Proof. intros Hclose. open_writer env db; nothing_committed. Qed.

Lemma delete_telegram_mapping_failed env t db :
  fault env Close = None ->
  snd (delete_telegram_mapping env t db) <> Ok true ->
  fst (delete_telegram_mapping env t db) = db.
Proof.
  intros Hclose. open_writer env db; try nothing_committed.
  (* the statement ran and matched no row *)
  intros _. destruct (H1 a eq_refl) as (_ & _ & _ & ->).
  apply Z.ltb_ge in Heqb0.
  rewrite filter_all; [by apply set_telegram_bitrix_mapping_id|].
  apply Forall_forall. intros r Hr Heq.
  assert (r ∈ filter (fun r => row_telegram_id r = t) rows) as Hin
    by (by apply list_elem_of_filter).
  destruct (filter (fun r => row_telegram_id r = t) rows);
    [by apply not_elem_of_nil in Hin|simpl in Heqb0; lia].
Qed.

(** X19.  A write that does not report success has not written: whatever
    else fails, as long as closing the connection does not, a save or delete
    that returns anything but [True] leaves the file exactly as it was. *)
Theorem failed_write_changes_nothing env db :
  fault env Close = None ->
  (forall t b,
     snd (save_telegram_mapping env t b db) <> Ok true ->
     fst (save_telegram_mapping env t b db) = db)
  /\ (forall u b,
        snd (save_username_mapping env u b db) <> Ok true ->
        fst (save_username_mapping env u b db) = db)
  /\ (forall t,
        snd (delete_telegram_mapping env t db) <> Ok true ->
        fst (delete_telegram_mapping env t db) = db).
Proof.
  intros Hclose. split_and!; intros.
  - by apply save_telegram_mapping_failed.
  - by apply save_username_mapping_failed.
  - by apply delete_telegram_mapping_failed.
Qed.

Lemma failed_write_changes_nothing_witness :
  snd (save_telegram_mapping disk_full 42 9 shared) = Ok false
  /\ fst (save_telegram_mapping disk_full 42 9 shared) = shared.
Proof.
  destruct (failed_write_changes_nothing disk_full shared eq_refl) as (Hsave & _).
  split; [reflexivity|]. apply Hsave. vm_compute. discriminate.
Defined.

(** ** The context manager *)

(** X20.  [get_db_connection] commits what the block wrote when the block
    ends normally, and otherwise rolls back and raises the block's own
    exception again: with a connection that opens, and a commit, rollback
    and close that do not fail, a block that ends normally inside a
    transaction leaves in the file what the connection saw, and a block that
    ends in an [Exception] leaves the file as it was last committed and ends
    in that exception. *)
Theorem get_db_connection_commits_or_rolls_back
    {L A} env (body : ST (L * Connection) A) l db l' c r :
  fault env Connect = None ->
  fault env Commit = None -> fault env Rollback = None -> fault env Close = None ->
  body (l, fresh db) = ((l', c), r) ->
  (forall a, r = Ok a -> in_transaction c = true ->
     get_db_connection env body (l, db) = ((l', current c), Ok a))
  /\ (forall e, r = Raise e -> is_Exception e = true ->
        get_db_connection env body (l, db) = ((l', durable c), Raise e)).
Proof.
  intros Hconnect Hcommit Hrollback Hclose Hbody.
  rewrite get_db_connection_leave, Hconnect, Hbody.
  split.
  - intros a -> Htx. destruct c as [d cur tx]. simpl in *. subst tx.
    unfold leave, try_finally, try_except, bind, ret, raise,
      conn_commit, conn_rollback, conn_close. simpl.
    by rewrite Hcommit, Hclose.
  - intros e -> He. destruct c as [d cur tx].
    unfold leave, try_finally, try_except, bind, ret, raise,
      conn_commit, conn_rollback, conn_close. simpl. rewrite He. simpl.
    destruct tx; simpl; by rewrite ?Hrollback, ?Hclose.
Qed.

Lemma get_db_connection_commits_or_rolls_back_witness :
  get_db_connection (quiet 5)
    (lift (cursor_execute_dml (quiet 5) 0 (DELETE_FROM_telegram_bitrix_mapping 42)))
    (tt, shared)
  = ((tt, set_telegram_bitrix_mapping [new_mapping_row 1 100 7] shared), Ok 1).
Proof.
  destruct (get_db_connection_commits_or_rolls_back (quiet 5)
              (lift (cursor_execute_dml (quiet 5) 0
                       (DELETE_FROM_telegram_bitrix_mapping 42)))
              tt shared tt
              {| durable := shared;
                 current := set_telegram_bitrix_mapping [new_mapping_row 1 100 7] shared;
                 in_transaction := true |}
              (Ok 1) eq_refl eq_refl eq_refl eq_refl eq_refl) as [Hcommit _].
  apply (Hcommit 1); reflexivity.
Defined.

(** ** More on what a write leaves alone *)

(** X21.  A delete touches one Telegram ID only: with no storage failure the
    lookup of any other ID answers as before. *)
Theorem delete_leaves_other_rows env1 env2 db t t' :
  no_faults env1 -> no_faults env2 ->
  is_Some (telegram_bitrix_mapping db) ->
  t' <> t ->
  snd (get_bitrix_user_id env2 t' (fst (delete_telegram_mapping env1 t db)))
  = snd (get_bitrix_user_id env2 t' db).
Proof.
  intros Hq1 Hq2 [rows Hrows] Hne. destruct (int64 t) eqn:Ht.
  - rewrite (delete_telegram_mapping_quiet env1 Hq1 db rows) by done. simpl.
    destruct (int64 t') eqn:Ht'.
    + erewrite (get_bitrix_user_id_quiet env2 Hq2 (set_telegram_bitrix_mapping _ db))
        by done.
      rewrite (get_bitrix_user_id_quiet env2 Hq2 db rows) by done. simpl.
      rewrite list_filter_filter. do 3 f_equal.
      apply list_filter_iff. intros r. split; [tauto|]. intros ->. done.
    + by rewrite !get_bitrix_user_id_overflow.
  - by rewrite (delete_telegram_mapping_overflow env1 Hq1).
Qed.

Lemma delete_leaves_other_rows_witness :
  snd (get_bitrix_user_id (quiet 4) 100
         (fst (delete_telegram_mapping (quiet 3) 42 shared)))
  = snd (get_bitrix_user_id (quiet 4) 100 shared).
Proof.
  apply delete_leaves_other_rows;
    [apply quiet_no_faults | apply quiet_no_faults | by eexists | lia].
Defined.

(** X22.  A handle save touches one handle only: with no storage failure
    the lookup of a handle that differs once stripped answers as before. *)
Theorem save_username_leaves_other_handles env1 env2 db u b u' :
  no_faults env1 -> no_faults env2 ->
  is_Some (username_bitrix_mapping db) ->
  int64 b = true ->
  lstrip u' "@" <> lstrip u "@" ->
  snd (get_bitrix_user_id_by_username env2 u'
         (fst (save_username_mapping env1 u b db)))
  = snd (get_bitrix_user_id_by_username env2 u' db).
Proof.
  intros Hq1 Hq2 [urows Hrows] Hb Hne.
  rewrite (save_username_mapping_quiet env1 Hq1 db urows) by done. simpl.
  erewrite (get_bitrix_user_id_by_username_quiet env2 Hq2
              (set_username_bitrix_mapping _ db)) by done.
  rewrite (get_bitrix_user_id_by_username_quiet env2 Hq2 db urows) by done. simpl.
  unfold replace_username_row.
  rewrite filter_app, filter_cons_False, filter_nil, (right_id_L [] (++))
    by (simpl; congruence).
  rewrite list_filter_filter. do 3 f_equal.
  apply list_filter_iff. intros r. simpl. split; [tauto|]. intros ->. done.
Qed.

Lemma save_username_leaves_other_handles_witness :
  snd (get_bitrix_user_id_by_username (quiet 3) "alice"
         (fst (save_username_mapping (quiet 2) "@bob" 55
                 (fst (save_username_mapping (quiet 1) "@alice" 7 initialized)))))
  = snd (get_bitrix_user_id_by_username (quiet 3) "alice"
           (fst (save_username_mapping (quiet 1) "@alice" 7 initialized))).
Proof.
  apply save_username_leaves_other_handles;
    [apply quiet_no_faults | apply quiet_no_faults | by eexists
    | reflexivity | discriminate].
Defined.

(** ** Timestamps *)

Lemma exec_timestamps_coincide env c db :
  timestamps_coincide db -> timestamps_coincide (exec env c db).
Proof.
  intros [Hm Hu]. destruct c as [|t b|t|b| |u b|u|t|]; simpl.
  - destruct (init_database_tables env db) as [[Ht|[Ht Ht']] [Hn|[Hn Hn']]];
      split; intros rows Hrows.
    all: first [ apply Hm; congruence | apply Hu; congruence
               | simplify_eq; constructor ].
  - destruct (save_telegram_mapping_file env t b db) as [->|(rows & Hr & Ht & Hb & ->)];
      [done|].
    split; simpl; [|done]. intros ? [= <-]. specialize (Hm rows Hr).
    rewrite Forall_forall in *. unfold replace_mapping_row.
    intros r [->|[_ Hin]%list_elem_of_filter]%elem_of_rowid_insert; [done|auto].
  - by rewrite get_bitrix_user_id_frame.
  - by rewrite get_telegram_id_frame.
  - by rewrite load_all_telegram_mappings_frame.
  - destruct (save_username_mapping_file env u b db) as [->|(urows & Hr & Hb & ->)];
      [done|].
    split; simpl; [done|]. intros ? [= <-]. specialize (Hu urows Hr).
    unfold replace_username_row. apply Forall_app. split.
    + rewrite Forall_forall in *. intros r [_ Hin]%list_elem_of_filter. auto.
    + by repeat constructor.
  - by rewrite get_bitrix_user_id_by_username_frame.
  - destruct (delete_telegram_mapping_file env t db) as [->|(rows & Hr & Ht & ->)];
      [done|].
    split; simpl; [|done]. intros ? [= <-]. specialize (Hm rows Hr).
    rewrite Forall_forall in *. intros r [_ Hin]%list_elem_of_filter. auto.
  - unfold get_all_mappings. by rewrite load_all_telegram_mappings_frame.
Qed.

(** X23.  In every state the module's calls can reach, [created_at] and
    [updated_at] of every row, in both tables, read the same: no call ever
    writes one without the other. *)
Theorem created_at_is_updated_at db :
  reachable db ->
  (forall rows r,
     telegram_bitrix_mapping db = Some rows -> r ∈ rows ->
     row_created_at r = row_updated_at r)
  /\ (forall urows r,
        username_bitrix_mapping db = Some urows -> r ∈ urows ->
        urow_created_at r = urow_updated_at r).
Proof.
  intros [history <-].
  assert (timestamps_coincide (run history empty_file)) as [Hm Hu].
  { assert (timestamps_coincide empty_file) as H0 by (split; intros ? [=]).
    revert H0. generalize empty_file.
    induction history as [|[env c] rest IH]; intros db0 H0; [done|].
    simpl. by apply IH, exec_timestamps_coincide. }
  split.
  - intros rows r Hrows Hr. specialize (Hm rows Hrows).
    rewrite Forall_forall in Hm. auto.
  - intros urows r Hrows Hr. specialize (Hu urows Hrows).
    rewrite Forall_forall in Hu. auto.
Qed.

Lemma created_at_is_updated_at_witness :
  Forall (fun r => row_created_at r = row_updated_at r)
    [new_mapping_row 2 42 7; new_mapping_row 1 100 7].
Proof.
  destruct (created_at_is_updated_at shared reachable_shared) as [Hm _].
  apply Forall_forall. intros r. by apply Hm.
Defined.
